(** * CoreDHCP plugins [whitelist] and [nbp]: a shallow embedding

    The development follows the Go sources
    - [plugins/whitelist/plugin.go]  (MAC address admission control),
    - [plugins/nbp/nbp.go]           (network boot program options),
    and states the properties of their specification as theorems.

    Go strings are byte sequences and are modelled by [string] (a list of
    8-bit [ascii] characters).  Go maps are modelled by [gmap].  Package-level
    variables are passed explicitly as a state record.  A [nil] pointer is
    [None]; dereferencing it is the outcome [Panic]. *)

From Stdlib Require Import NArith Ascii String List Bool Lia.
From Stdlib.Strings Require Import Byte.
From Stdlib.Numbers Require Import DecimalString.
From stdpp Require Import base option gmap strings list.

Local Open Scope N_scope.

(** ** Outcomes of code that may dereference a nil pointer *)

Inductive Outcome (A : Type) : Type :=
  | Ret (a : A)
  | Panic.
Arguments Ret {A} a.
Arguments Panic {A}.

#[global] Instance Outcome_ret : MRet Outcome := fun A a => Ret a.
#[global] Instance Outcome_bind : MBind Outcome := fun A B k m =>
  match m with
  | Ret a => k a
  | Panic => Panic
  end.

(** Go's [error] values only carry a message here. *)
Definition error : Type := string.

(** ** The Go standard library functions the plugins call *)

(** The Unicode-aware slow paths of Go's [strings] package are not part of
    the repository; they are taken as parameters.  They are only reached for
    strings holding a byte [>= utf8.RuneSelf]. *)
Class UnicodeTables := {
  (** [strings.Map(unicode.ToLower, s)] *)
  Map_unicode_ToLower : string → string;
  (** [strings.TrimFunc(s, unicode.IsSpace)] *)
  TrimFunc_unicode_IsSpace : string → string;
  (** [strings.TrimRightFunc(s, unicode.IsSpace)] *)
  TrimRightFunc_unicode_IsSpace : string → string
}.

Module GoStrings.

(** [utf8.RuneSelf]: bytes below it are single-byte runes. *)
Definition RuneSelf : N := 0x80.

Definition byteOf (c : ascii) : N := N_of_ascii c.

Fixpoint allBytes (p : ascii → bool) (s : string) : bool :=
  match s with
  | EmptyString => true
  | String c s' => p c && allBytes p s'
  end.

Fixpoint anyByte (p : ascii → bool) (s : string) : bool :=
  match s with
  | EmptyString => false
  | String c s' => p c || anyByte p s'
  end.

Fixpoint mapBytes (f : ascii → ascii) (s : string) : string :=
  match s with
  | EmptyString => EmptyString
  | String c s' => String (f c) (mapBytes f s')
  end.

Definition isASCIIByte (c : ascii) : bool := byteOf c <? RuneSelf.
Definition isASCII (s : string) : bool := allBytes isASCIIByte s.

(** ['A' <= c && c <= 'Z'] *)
Definition isUpperByte (c : ascii) : bool :=
  (byteOf "A" <=? byteOf c) && (byteOf c <=? byteOf "Z").
Definition hasUpper (s : string) : bool := anyByte isUpperByte s.

(** [c += 'a' - 'A'] for an upper-case byte *)
Definition lowerByte (c : ascii) : ascii :=
  if isUpperByte c then ascii_of_N (byteOf c + (byteOf "a" - byteOf "A")) else c.

(** [strings.ToLower]: the ASCII fast path, else the Unicode mapping. *)
Definition ToLower `{UnicodeTables} (s : string) : string :=
  if isASCII s then
    if hasUpper s then mapBytes lowerByte s else s
  else Map_unicode_ToLower s.

(** [asciiSpace]: ['\t', '\n', '\v', '\f', '\r', ' '] *)
Definition asciiSpace (c : ascii) : bool :=
  let b := byteOf c in
  (b =? 9) || (b =? 10) || (b =? 11) || (b =? 12) || (b =? 13) || (b =? 32).

(** First loop of [strings.TrimSpace]: advance [start] over ASCII spaces.
    The flag tells that a non-ASCII byte was met; the string is
    [s[start:]]. *)
Fixpoint trimStart (s : string) : bool * string :=
  match s with
  | EmptyString => (false, EmptyString)
  | String c s' =>
      if negb (isASCIIByte c) then (true, s)
      else if asciiSpace c then trimStart s'
      else (false, s)
  end.

(** Second loop of [strings.TrimSpace]: move [stop] back over ASCII
    spaces.  The flag tells that a non-ASCII byte was met; the string is
    [s[start:stop]]. *)
Fixpoint trimStop (s : string) : bool * string :=
  match s with
  | EmptyString => (false, EmptyString)
  | String c s' =>
      match trimStop s' with
      | (_, EmptyString) =>
          if negb (isASCIIByte c) then (true, String c EmptyString)
          else if asciiSpace c then (false, EmptyString)
          else (false, String c EmptyString)
      | (f, t) => (f, String c t)
      end
  end.

(** [strings.TrimSpace] *)
Definition TrimSpace `{UnicodeTables} (s : string) : string :=
  match trimStart s with
  | (true, rest) => TrimFunc_unicode_IsSpace rest
  | (false, rest) =>
      match trimStop rest with
      | (true, mid) => TrimRightFunc_unicode_IsSpace mid
      | (false, mid) => mid
      end
  end.

(** What [TrimSpace] returns when neither loop meets a non-ASCII byte. *)
Definition asciiTrim (s : string) : string := snd (trimStop (snd (trimStart s))).

(** [strings.ReplaceAll(s, old, new)] for a non-empty [old]: the matches of
    [old] are found from left to right, each match is replaced and the
    search resumes after it.  [skip] counts the bytes of the current match
    still to be dropped. *)
Fixpoint replaceFrom (old new : string) (skip : nat) (s : string) : string :=
  match s with
  | EmptyString => EmptyString
  | String c s' =>
      match skip with
      | S k => replaceFrom old new k s'
      | O =>
          if String.prefix old s
          then new +:+ replaceFrom old new (Nat.pred (String.length old)) s'
          else String c (replaceFrom old new O s')
      end
  end.

(** For an empty [old] Go inserts [new] before every rune and at the end;
    on bytes this is exact for ASCII input.  The plugins only pass the
    non-empty literals ["{arch}"] and ["{efi}"]. *)
Fixpoint insertBeforeEach (new s : string) : string :=
  match s with
  | EmptyString => new
  | String c s' => new +:+ String c (insertBeforeEach new s')
  end.

Definition ReplaceAll (s old new : string) : string :=
  match old with
  | EmptyString => insertBeforeEach new s
  | _ => replaceFrom old new O s
  end.
Global Arguments ReplaceAll : simpl never.

(** [strings.Contains(s, substr)]: some suffix of [s] starts with
    [substr]. *)
Fixpoint Contains (s substr : string) : bool :=
  match s with
  | EmptyString => String.prefix substr EmptyString
  | String _ s' => String.prefix substr s || Contains s' substr
  end.

End GoStrings.

(** An instance for evaluating on ASCII inputs, where the Unicode paths are
    never taken. *)
Definition asciiTables : UnicodeTables :=
  {| Map_unicode_ToLower := fun s => s;
     TrimFunc_unicode_IsSpace := fun s => s;
     TrimRightFunc_unicode_IsSpace := fun s => s |}.

(** ** Package [net]: hardware addresses *)

Module GoNet.

(** [net.HardwareAddr] is a byte slice. *)
Definition HardwareAddr : Type := list byte.

Definition hexDigit : string := "0123456789abcdef".

(** [hexDigit[i]] for [i < 16] *)
Definition hexDigitAt (i : N) : ascii :=
  match String.get (N.to_nat i) hexDigit with
  | Some c => c
  | None => "0"%char
  end.

(** The loop of [HardwareAddr.String]; [i] is the loop index. *)
Fixpoint appendHex (i : nat) (a : list byte) : string :=
  match a with
  | [] => EmptyString
  | b :: a' =>
      let n := Byte.to_N b in
      let digits :=
        String (hexDigitAt (N.shiftr n 4))
          (String (hexDigitAt (N.land n 0xF)) (appendHex (S i) a')) in
      match i with
      | O => digits
      | S _ => String ":" digits
      end
  end.

(** [func (a HardwareAddr) String() string] *)
Definition HardwareAddr_String (a : HardwareAddr) : string :=
  match a with
  | [] => EmptyString
  | _ => appendHex O a
  end.

(** [net.IP] is a byte slice; [None] where Go has the nil slice. *)
Definition IP : Type := list byte.

(** [isZeros(p)] *)
Definition isZeros (p : list byte) : bool :=
  forallb (λ b, Byte.eqb b x00) p.

(** [ip[i] == v] for an index in range *)
Definition byteIs (ip : IP) (i : nat) (v : byte) : bool :=
  match ip !! i with
  | Some b => Byte.eqb b v
  | None => false
  end.

(** [func (ip IP) To4() IP]: a 4-byte address as it is, the last four bytes
    of a 16-byte IPv4-mapped address, and nil otherwise. *)
Definition To4 (ip : IP) : option IP :=
  if Nat.eqb (length ip) 4 then Some ip
  else if Nat.eqb (length ip) 16
          && isZeros (take 10 ip)
          && byteIs ip 10 xff
          && byteIs ip 11 xff
  then Some (take 4 (drop 12 ip))
  else None.

End GoNet.

(** [net.ParseIP] is not part of the repository; it is taken as a
    parameter.  [None] is its nil result. *)
Class NetIP := {
  ParseIP : string → option GoNet.IP
}.

(** ** Package [net/url]: the URL structure and its [String] method *)

Module GoURL.

(** [type Userinfo struct] *)
Record Userinfo := {
  username : string;
  password : string;
  passwordSet : bool
}.

(** [type URL struct] *)
Record URL := {
  Scheme : string;
  Opaque : string;
  User : option Userinfo;
  Host : string;
  Path : string;
  RawPath : string;
  OmitHost : bool;
  ForceQuery : bool;
  RawQuery : string;
  Fragment : string;
  RawFragment : string
}.

(** The assignment [u.Path = p] on a copy of the structure. *)
Definition set_Path (u : URL) (p : string) : URL :=
  {| Scheme := Scheme u; Opaque := Opaque u; User := User u; Host := Host u;
     Path := p; RawPath := RawPath u; OmitHost := OmitHost u;
     ForceQuery := ForceQuery u; RawQuery := RawQuery u;
     Fragment := Fragment u; RawFragment := RawFragment u |}.

Inductive encoding :=
  | encodePath | encodePathSegment | encodeHost | encodeZone
  | encodeUserPassword | encodeQueryComponent | encodeFragment.

Definition byteIn (c : ascii) (set : string) : bool :=
  GoStrings.anyByte (Ascii.eqb c) set.

Definition between (lo hi c : ascii) : bool :=
  (N_of_ascii lo <=? N_of_ascii c) && (N_of_ascii c <=? N_of_ascii hi).

Definition ishex (c : ascii) : bool :=
  between "0" "9" c || between "a" "f" c || between "A" "F" c.

Definition unhex (c : ascii) : N :=
  if between "0" "9" c then N_of_ascii c - N_of_ascii "0"
  else if between "a" "f" c then N_of_ascii c - N_of_ascii "a" + 10
  else if between "A" "F" c then N_of_ascii c - N_of_ascii "A" + 10
  else 0.

Definition isHostOrZone (mode : encoding) : bool :=
  match mode with encodeHost | encodeZone => true | _ => false end.

(** [func shouldEscape(c byte, mode encoding) bool] *)
Definition shouldEscape (c : ascii) (mode : encoding) : bool :=
  if between "a" "z" c || between "A" "Z" c || between "0" "9" c then false
  else if isHostOrZone mode
          && (byteIn c "!$&'()*+,;=:[]<>" || Ascii.eqb c (ascii_of_N 34)) then false
  else if byteIn c "-_.~" then false
  else if byteIn c "$&+,/:;=?@" then
    match mode with
    | encodePath => Ascii.eqb c "?"
    | encodePathSegment => byteIn c "/;,?"
    | encodeUserPassword => byteIn c "@/?:"
    | encodeQueryComponent => true
    | encodeFragment => false
    | encodeHost | encodeZone => true
    end
  else if match mode with encodeFragment => byteIn c "!()*" | _ => false end
  then false
  else true.

Definition upperhex : string := "0123456789ABCDEF".

Definition upperhexAt (i : N) : ascii :=
  match String.get (N.to_nat i) upperhex with
  | Some c => c
  | None => "0"%char
  end.

(** [func escape(s string, mode encoding) string] *)
Fixpoint escape (s : string) (mode : encoding) : string :=
  match s with
  | EmptyString => EmptyString
  | String c s' =>
      if shouldEscape c mode then
        if Ascii.eqb c " " && match mode with encodeQueryComponent => true | _ => false end
        then String "+" (escape s' mode)
        else String "%" (String (upperhexAt (N.shiftr (N_of_ascii c) 4))
               (String (upperhexAt (N.land (N_of_ascii c) 15)) (escape s' mode)))
      else String c (escape s' mode)
  end.

(** [func unescape(s string, mode encoding) (string, error)]; [None] is
    the error result. *)
Fixpoint unescape (s : string) (mode : encoding) : option string :=
  match s with
  | EmptyString => Some EmptyString
  | String c s' =>
      if Ascii.eqb c "%" then
        match s' with
        | String h1 (String h2 rest) =>
            let v := N.lor (N.shiftl (unhex h1) 4) (unhex h2) in
            let is25 := Ascii.eqb h1 "2" && Ascii.eqb h2 "5" in
            if negb (ishex h1 && ishex h2) then None
            else if match mode with encodeHost => true | _ => false end
                    && (unhex h1 <? 8) && negb is25 then None
            else if match mode with encodeZone => true | _ => false end
                    && negb is25 && negb (v =? 32)
                    && shouldEscape (ascii_of_N v) encodeHost then None
            else String (ascii_of_N v) <$> unescape rest mode
        | _ => None
        end
      else if Ascii.eqb c "+" then
        String (match mode with encodeQueryComponent => " " | _ => "+" end)%char
          <$> unescape s' mode
      else if isHostOrZone mode && (N_of_ascii c <? 128) && shouldEscape c encodeHost
      then None
      else String c <$> unescape s' mode
  end.

(** [func validEncoded(s string, mode encoding) bool] *)
Definition validEncoded (s : string) (mode : encoding) : bool :=
  GoStrings.allBytes
    (fun c => byteIn c "!$&'()*+,;=:@[]%" || negb (shouldEscape c mode)) s.

(** method [EscapedPath] of [URL] *)
Definition EscapedPath (u : URL) : string :=
  if negb (String.eqb (RawPath u) "") && validEncoded (RawPath u) encodePath
     && bool_decide (unescape (RawPath u) encodePath = Some (Path u))
  then RawPath u
  else if String.eqb (Path u) "*" then "*"
  else escape (Path u) encodePath.

(** method [EscapedFragment] of [URL] *)
Definition EscapedFragment (u : URL) : string :=
  if negb (String.eqb (RawFragment u) "") && validEncoded (RawFragment u) encodeFragment
     && bool_decide (unescape (RawFragment u) encodeFragment = Some (Fragment u))
  then RawFragment u
  else escape (Fragment u) encodeFragment.

(** method [String] of [Userinfo], on a non-nil receiver *)
Definition Userinfo_String (ui : Userinfo) : string :=
  escape (username ui) encodeUserPassword
  +:+ (if passwordSet ui then ":" +:+ escape (password ui) encodeUserPassword else "").

Definition nonEmpty (s : string) : bool := negb (String.eqb s "").

(** The first path segment, [strings.Cut(path, "/")]. *)
Fixpoint firstSegment (path : string) : string :=
  match path with
  | EmptyString => EmptyString
  | String c s' => if Ascii.eqb c "/" then EmptyString else String c (firstSegment s')
  end.

(** method [String] of [URL] *)
Definition URL_String (u : URL) : string :=
  let buf := if nonEmpty (Scheme u) then Scheme u +:+ ":" else "" in
  let buf :=
    if nonEmpty (Opaque u) then buf +:+ Opaque u
    else
      let buf :=
        if nonEmpty (Scheme u) || nonEmpty (Host u) || bool_decide (is_Some (User u)) then
          if OmitHost u && negb (nonEmpty (Host u)) && negb (bool_decide (is_Some (User u)))
          then buf
          else
            let buf :=
              if nonEmpty (Host u) || nonEmpty (Path u) || bool_decide (is_Some (User u))
              then buf +:+ "//" else buf in
            let buf :=
              match User u with
              | Some ui => buf +:+ Userinfo_String ui +:+ "@"
              | None => buf
              end in
            if nonEmpty (Host u) then buf +:+ escape (Host u) encodeHost else buf
        else buf in
      let path := EscapedPath u in
      let buf :=
        match path with
        | String c _ =>
            if negb (Ascii.eqb c "/") && nonEmpty (Host u) then buf +:+ "/" else buf
        | EmptyString => buf
        end in
      let buf :=
        if String.eqb buf "" && byteIn ":" (firstSegment path)
        then buf +:+ "./" else buf in
      buf +:+ path in
  let buf :=
    if ForceQuery u || nonEmpty (RawQuery u) then buf +:+ "?" +:+ RawQuery u else buf in
  if nonEmpty (Fragment u) then buf +:+ "#" +:+ EscapedFragment u else buf.

End GoURL.

(** [url.Parse] and [url.Values.Get] over [u.Query()] are not part of the
    repository; they are taken as parameters. *)
Class NetURL := {
  (** [url.Parse(rawURL)] *)
  Parse : string → GoURL.URL + error;
  (** [u.Query().Get(key)] *)
  Query_Get : GoURL.URL → string → string
}.

(** ** The DHCP codec (github.com/insomniacslk/dhcp), as the plugins use it

    The codec is an external collaborator.  A request is described by what
    the plugins read from it through the codec's accessors; a reply by the
    fields the plugins write. *)

Module Iana.
(** [type Arch uint16]; the three codes the plugin names, with their values
    in the IANA processor architecture registry.  The properties below only
    use that they differ. *)
Definition Arch : Type := N.
Definition INTEL_X86PC : Arch := 0.
Definition EFI_X86_64 : Arch := 7.
Definition EFI_ARM64 : Arch := 11.
End Iana.

Module Dhcpv4.

(** Option codes are [uint8]. *)
Definition OptionCode : Type := N.
Definition OptionTFTPServerName : OptionCode := 66.
Definition OptionBootfileName : OptionCode := 67.

(** [type Option struct { Code; Value }] with a string value *)
Record Option := { Code : OptionCode; Value : string }.

Definition OptTFTPServerName (name : string) : Option :=
  {| Code := OptionTFTPServerName; Value := name |}.
Definition OptBootFileName (name : string) : Option :=
  {| Code := OptionBootfileName; Value := name |}.

(** [func (o Options) Update(option Option)]: [o[code] = value bytes] *)
Definition Update (o : gmap N string) (opt : Option) : gmap N string :=
  <[Code opt := Value opt]> o.

Record Request := {
  (** [req.ClientHWAddr] *)
  ClientHWAddr : GoNet.HardwareAddr;
  (** [req.ClientArch()] *)
  ClientArch : list Iana.Arch;
  (** [req.IsOptionRequested(code)] *)
  IsOptionRequested : OptionCode → bool
}.

(** The method [IsOptionRequested] of the packet library
    (github.com/insomniacslk/dhcp, package [dhcpv4]), on the result [rq] of
    [d.ParameterRequestList()]; [None] is the nil list of a request without
    a parameter request list (option 55).  The method returns [true] at once
    when the list is nil, and otherwise looks the code up in the list. *)
Definition isOptionRequested (rq : option (list OptionCode))
    (requested : OptionCode) : bool :=
  match rq with
  | None => true
  | Some codes => existsb (N.eqb requested) codes
  end.

(** The option codes the client listed itself. *)
Definition listedCodes (rq : option (list OptionCode)) : list OptionCode :=
  default [] rq.

Record Reply := {
  (** [resp.ServerIPAddr] *)
  ServerIPAddr : list byte;
  (** [resp.Options], type [map[uint8][]byte] *)
  Options : gmap N string
}.

(** [resp.Options.Update(opt)] through the pointer [resp] *)
Definition Options_Update (resp : option Reply) (opt : Option) : Outcome (option Reply) :=
  match resp with
  | None => Panic
  | Some r =>
      Ret (Some {| ServerIPAddr := ServerIPAddr r; Options := Update (Options r) opt |})
  end.

End Dhcpv4.

Module Dhcpv6.

(** Option codes are [uint16]. *)
Definition OptionCode : Type := N.
Definition OptionBootfileURL : OptionCode := 59.
Definition OptionBootfileParam : OptionCode := 60.

(** An option: its code and its data bytes. *)
Record Option := { Code : OptionCode; Data : string }.

Definition OptBootFileURL (url : string) : Option :=
  {| Code := OptionBootfileURL; Data := url |}.

(** The decapsulated message, [req.GetInnerMessage()] *)
Record Message := {
  (** [decap.Options.RequestedOptions()] *)
  RequestedOptions : list OptionCode
}.

Record Request := {
  (** [dhcpv6.ExtractMAC(req)] *)
  ExtractMAC : GoNet.HardwareAddr + error;
  (** [req.GetInnerMessage()] *)
  GetInnerMessage : Message + error
}.

Record Reply := {
  (** the options of the reply, in order *)
  Options : list Option
}.

(** [resp.AddOption(opt)] on the interface value [resp] *)
Definition AddOption (resp : option Reply) (opt : Option) : Outcome (option Reply) :=
  match resp with
  | None => Panic
  | Some r => Ret (Some {| Options := Options r ++ [opt] |})
  end.

End Dhcpv6.

(** ** Package [plugins/whitelist] *)

Module Whitelist.
Import GoStrings GoNet.

Section Plugin.
Context `{UnicodeTables}.

(** [var whitelistedMACs map[string]bool]; [None] is the nil map. *)
Definition Globals : Type := option (gmap string bool).

(** [len(m)] on a possibly nil map *)
Definition mapLen (m : Globals) : nat :=
  match m with
  | None => O
  | Some m => size m
  end.

(** [m[k]] on a possibly nil map: the zero value when absent *)
Definition mapIndex (m : Globals) (k : string) : bool :=
  match m with
  | None => false
  | Some m => default false (m !! k)
  end.

Definition isNil (m : Globals) : bool :=
  match m with None => true | Some _ => false end.

(** [func Handler6(req, resp dhcpv6.DHCPv6) (dhcpv6.DHCPv6, bool)] *)
Definition Handler6 (whitelistedMACs : Globals)
    (req : Dhcpv6.Request) (resp : option Dhcpv6.Reply)
    : option Dhcpv6.Reply * bool :=
  if isNil whitelistedMACs || Nat.eqb (mapLen whitelistedMACs) 0 then (resp, false)
  else
    match Dhcpv6.ExtractMAC req with
    | inr err => (None, true)
    | inl mac =>
        let macStr := ToLower (HardwareAddr_String mac) in
        if negb (mapIndex whitelistedMACs macStr) then (None, true)
        else (resp, false)
    end.

(** [func Handler4(req, resp)], on pointers to [dhcpv4.DHCPv4] *)
Definition Handler4 (whitelistedMACs : Globals)
    (req : Dhcpv4.Request) (resp : option Dhcpv4.Reply)
    : option Dhcpv4.Reply * bool :=
  if isNil whitelistedMACs || Nat.eqb (mapLen whitelistedMACs) 0 then (resp, false)
  else
    let macStr := ToLower (HardwareAddr_String (Dhcpv4.ClientHWAddr req)) in
    if negb (mapIndex whitelistedMACs macStr) then (None, true)
    else (resp, false).

(** The body of the loop [for i, arg := range args] of both setups. *)
Definition addArg (m : gmap string bool) (arg : string) : gmap string bool :=
  let mac := ToLower (TrimSpace arg) in
  if Nat.ltb 0 (String.length mac) then <[mac := true]> m else m.

(** [whitelistedMACs = make(map[string]bool)] followed by the loop. *)
Definition parseMACs (args : list string) : gmap string bool :=
  foldl addArg ∅ args.

(** [func setup6(args ...string) (handler.Handler6, error)]: the new
    value of [whitelistedMACs]; the function returns [Handler6, nil] on
    every path. *)
Definition setup6 (whitelistedMACs : Globals) (args : list string) : Globals :=
  Some (parseMACs args).

(** [func setup4(args ...string) (handler.Handler4, error)]: the new
    value of [whitelistedMACs]; the function returns [Handler4, nil] on
    every path. *)
Definition setup4 (whitelistedMACs : Globals) (args : list string) : Globals :=
  if isNil whitelistedMACs then Some (parseMACs args)
  else whitelistedMACs.

End Plugin.
End Whitelist.

(** ** Package [plugins/nbp] *)

Module Nbp.
Import GoStrings GoURL.

(** [var ( opt59, opt60 dhcpv6.Option; opt66, opt67 *dhcpv4.Option )];
    [None] is the nil interface or pointer.  Nothing in the package assigns
    [opt66] or [opt67]: the [setup4] that did is commented out. *)
Record Globals := {
  opt59 : option Dhcpv6.Option;
  opt60 : option Dhcpv6.Option;
  opt66 : option Dhcpv4.Option;
  opt67 : option Dhcpv4.Option
}.

(** The values of the package variables before any setup. *)
Definition initial : Globals :=
  {| opt59 := None; opt60 := None; opt66 := None; opt67 := None |}.

(** [func getArchString(archs []iana.Arch) string] *)
Definition getArchString (archs : list Iana.Arch) : string :=
  match archs with
  | [] => "default"
  | a :: _ =>
      if a =? Iana.EFI_X86_64 then "x86"
      else if a =? Iana.EFI_ARM64 then "arm64"
      else if a =? Iana.INTEL_X86PC then "x86legacy"
      else "unknown"
  end.

(** The closure returned by [setup4], lines 115 to 129: the copy
    [modifiedURL := *u] and the two substitutions in its path. *)
Definition substitute (u : URL) (archStr : string) : URL :=
  let modifiedURL := u in
  let modifiedURL :=
    set_Path modifiedURL (ReplaceAll (Path modifiedURL) "{arch}" archStr) in
  if String.eqb archStr "x86" then
    set_Path modifiedURL (ReplaceAll (Path modifiedURL) "{efi}" "grubx64.efi")
  else if String.eqb archStr "arm64" then
    set_Path modifiedURL (ReplaceAll (Path modifiedURL) "{efi}" "grubaa64.efi")
  else if String.eqb archStr "x86legacy" then
    set_Path modifiedURL (ReplaceAll (Path modifiedURL) "{efi}" "grub.0")
  else
    set_Path modifiedURL (ReplaceAll (Path modifiedURL) "{efi}" "unknown.efi").

(** The closure returned by [setup4], lines 132 to 143: the pair
    [(tftpOpt, bootOpt)] after the switch on the scheme. *)
Definition generateOptions (modifiedURL : URL)
    : option Dhcpv4.Option * option Dhcpv4.Option :=
  let scheme := Scheme modifiedURL in
  if String.eqb scheme "http" || String.eqb scheme "https" || String.eqb scheme "ftp"
  then (None, Some (Dhcpv4.OptBootFileName (URL_String modifiedURL)))
  else (Some (Dhcpv4.OptTFTPServerName (Host modifiedURL)),
        Some (Dhcpv4.OptBootFileName (Path modifiedURL))).

(** One guarded update, [if opt != nil && req.IsOptionRequested(code)]. *)
Definition updateIfRequested (req : Dhcpv4.Request) (opt : option Dhcpv4.Option)
    (code : Dhcpv4.OptionCode) (resp : option Dhcpv4.Reply)
    : Outcome (option Dhcpv4.Reply) :=
  match opt with
  | Some o =>
      if Dhcpv4.IsOptionRequested req code then Dhcpv4.Options_Update resp o
      else Ret resp
  | None => Ret resp
  end.

(** The closure returned by [setup4] for the parsed template [u].  The
    second component is the content of the cell [*u] when the closure
    returns: the closure reads [*u] once, into [modifiedURL], and writes
    only to that copy. *)
Definition handler4 (u : URL) (req : Dhcpv4.Request) (resp : option Dhcpv4.Reply)
    : Outcome (option Dhcpv4.Reply * bool) * URL :=
  let archs := Dhcpv4.ClientArch req in
  let archStr := getArchString archs in
  let modifiedURL := substitute u archStr in
  let '(tftpOpt, bootOpt) := generateOptions modifiedURL in
  (resp ← updateIfRequested req tftpOpt Dhcpv4.OptionTFTPServerName resp;
   resp ← updateIfRequested req bootOpt Dhcpv4.OptionBootfileName resp;
   Ret (resp, true),
   u).

(** The two URL variables of the closure: the cell the captured pointer
    [u] refers to, which every call of the closure shares, and the local
    [modifiedURL] of a call. *)
Inductive Place := Template | Working.

#[global] Instance Place_eq_dec : EqDecision Place.
Proof. solve_decision. Defined.

(** The store the closure runs in: the content of both variables. *)
Record Frame := {
  cellTemplate : URL;
  cellWorking : URL
}.

(** Reading a variable. *)
Definition read (x : Place) (σ : Frame) : URL :=
  match x with
  | Template => cellTemplate σ
  | Working => cellWorking σ
  end.

(** Assigning a whole structure to a variable. *)
Definition write (x : Place) (v : URL) (σ : Frame) : Frame :=
  match x with
  | Template => {| cellTemplate := v; cellWorking := cellWorking σ |}
  | Working => {| cellTemplate := cellTemplate σ; cellWorking := v |}
  end.

(** The assignment [x.Path = p]. *)
Definition assignPath (x : Place) (p : string) (σ : Frame) : Frame :=
  write x (set_Path (read x σ) p) σ.

(** Lines 115 to 129 of the closure as assignments on the store: the copy
    [modifiedURL := *u], then the assignments to [modifiedURL.Path]. *)
Definition resolveIn (archStr : string) (σ : Frame) : Frame :=
  let σ := write Working (read Template σ) σ in
  let σ := assignPath Working
             (ReplaceAll (Path (read Working σ)) "{arch}" archStr) σ in
  if String.eqb archStr "x86" then
    assignPath Working (ReplaceAll (Path (read Working σ)) "{efi}" "grubx64.efi") σ
  else if String.eqb archStr "arm64" then
    assignPath Working (ReplaceAll (Path (read Working σ)) "{efi}" "grubaa64.efi") σ
  else if String.eqb archStr "x86legacy" then
    assignPath Working (ReplaceAll (Path (read Working σ)) "{efi}" "grub.0") σ
  else
    assignPath Working (ReplaceAll (Path (read Working σ)) "{efi}" "unknown.efi") σ.

(** One call of the closure on the store [σ]: its result and the store it
    leaves.  The local [modifiedURL] holds whatever [σ] has for it when the
    call starts. *)
Definition closure4 (req : Dhcpv4.Request) (resp : option Dhcpv4.Reply) (σ : Frame)
    : Outcome (option Dhcpv4.Reply * bool) * Frame :=
  let archs := Dhcpv4.ClientArch req in
  let archStr := getArchString archs in
  let σ := resolveIn archStr σ in
  let '(tftpOpt, bootOpt) := generateOptions (read Working σ) in
  (resp ← updateIfRequested req tftpOpt Dhcpv4.OptionTFTPServerName resp;
   resp ← updateIfRequested req bootOpt Dhcpv4.OptionBootfileName resp;
   Ret (resp, true),
   σ).

(** The loop body of [nbpHandler6] for one requested code. *)
Definition addRequested (o59 : Dhcpv6.Option) (o60 : option Dhcpv6.Option)
    (resp : option Dhcpv6.Reply) (code : Dhcpv6.OptionCode)
    : Outcome (option Dhcpv6.Reply) :=
  if code =? Dhcpv6.OptionBootfileURL then Dhcpv6.AddOption resp o59
  else if code =? Dhcpv6.OptionBootfileParam then
    match o60 with
    | Some o => Dhcpv6.AddOption resp o
    | None => Ret resp
    end
  else Ret resp.

(** [for _, code := range decap.Options.RequestedOptions()] *)
Fixpoint addAllRequested (o59 : Dhcpv6.Option) (o60 : option Dhcpv6.Option)
    (resp : option Dhcpv6.Reply) (codes : list Dhcpv6.OptionCode)
    : Outcome (option Dhcpv6.Reply) :=
  match codes with
  | [] => Ret resp
  | code :: codes' =>
      resp ← addRequested o59 o60 resp code;
      addAllRequested o59 o60 resp codes'
  end.

(** [func nbpHandler6(req, resp dhcpv6.DHCPv6) (dhcpv6.DHCPv6, bool)] *)
Definition nbpHandler6 (g : Globals) (req : Dhcpv6.Request) (resp : option Dhcpv6.Reply)
    : Outcome (option Dhcpv6.Reply * bool) :=
  match opt59 g with
  | None => Ret (resp, true)
  | Some o59 =>
      match Dhcpv6.GetInnerMessage req with
      | inr err => Ret (None, true)
      | inl decap =>
          resp ← addAllRequested o59 (opt60 g) resp (Dhcpv6.RequestedOptions decap);
          Ret (resp, true)
      end
  end.

(** [func nbpHandler4(req, resp)], on pointers to [dhcpv4.DHCPv4].  No
    setup returns it any more; the closure of [setup4] replaced it. *)
Definition nbpHandler4 (g : Globals) (req : Dhcpv4.Request) (resp : option Dhcpv4.Reply)
    : Outcome (option Dhcpv4.Reply * bool) :=
  match opt67 g with
  | None => Ret (resp, true)
  | Some o67 =>
      resp ← (if Dhcpv4.IsOptionRequested req Dhcpv4.OptionTFTPServerName
              then match opt66 g with
                   | Some o66 => Dhcpv4.Options_Update resp o66
                   | None => Ret resp
                   end
              else Ret resp);
      resp ← (if Dhcpv4.IsOptionRequested req Dhcpv4.OptionBootfileName
              then Dhcpv4.Options_Update resp o67
              else Ret resp);
      Ret (resp, true)
  end.

(** What [setup6] establishes for the package variables: [opt59] is a
    boot-file URL option and [opt60] a boot-file parameter option. *)
Definition wellFormed (g : Globals) : Prop :=
  (∀ o, opt59 g = Some o → Dhcpv6.Code o = Dhcpv6.OptionBootfileURL)
  ∧ (∀ o, opt60 g = Some o → Dhcpv6.Code o = Dhcpv6.OptionBootfileParam).

Section Setup.
Context `{NetURL}.

(** [func parseArgs(args ...string)], returning a [url.URL] pointer or an error *)
Definition parseArgs (args : list string) : URL + error :=
  match args with
  | [a] => Parse a
  | _ => inr ("Exactly one argument must be passed to NBP plugin, got "
              +:+ NilEmpty.string_of_uint (Nat.to_uint (length args)))
  end.

(** [func setup6(args ...string) (handler.Handler6, error)]: the new
    values of the package variables and the error; on success the
    function returns [nbpHandler6]. *)
Definition setup6 (g : Globals) (args : list string) : Globals * option error :=
  match parseArgs args with
  | inr err => (g, Some err)
  | inl u =>
      let g := {| opt59 := Some (Dhcpv6.OptBootFileURL (URL_String u));
                  opt60 := opt60 g; opt66 := opt66 g; opt67 := opt67 g |} in
      let params := Query_Get u "params" in
      let g :=
        if negb (String.eqb params "")
        then {| opt59 := opt59 g; opt66 := opt66 g; opt67 := opt67 g;
                opt60 := Some {| Dhcpv6.Code := Dhcpv6.OptionBootfileParam;
                                 Dhcpv6.Data := params |} |}
        else g in
      (g, None)
  end.

(** [func setup4(args ...string) (handler.Handler4, error)]: the closure
    over the parsed template, or the error. *)
Definition setup4 (args : list string)
    : (Dhcpv4.Request → option Dhcpv4.Reply
       → Outcome (option Dhcpv4.Reply * bool) * URL) + error :=
  match parseArgs args with
  | inr err => inr err
  | inl u => inl (handler4 u)
  end.

End Setup.
End Nbp.

(** ** Package [next_server] *)

Module NextServer.

(** [type NextServerPlugin struct { NextServer net.IP }] *)
Record NextServerPlugin := { NextServer : GoNet.IP }.

Section Setup.
Context `{NetIP}.

(** [func setup4(args ...string) (handler.Handler4, error)]: the plugin
    value whose method [handle4] is returned, or the error. *)
Definition setup4 (args : list string) : NextServerPlugin + error :=
  match args with
  | [] => inr "next_server plugin requires an IP address argument"
  | a :: _ =>
      match ParseIP a with
      | None => inr ("invalid IPv4 address for next_server: " +:+ a)
      | Some ip =>
          match GoNet.To4 ip with
          | None => inr ("invalid IPv4 address for next_server: " +:+ a)
          | Some _ => inl {| NextServer := ip |}
          end
      end
  end.

End Setup.

(** [func (p NextServerPlugin) handle4(req, resp)], on pointers to
    [dhcpv4.DHCPv4]; a nil result of [To4] is stored as the empty slice. *)
Definition handle4 (p : NextServerPlugin) (req : Dhcpv4.Request)
    (resp : option Dhcpv4.Reply) : option Dhcpv4.Reply * bool :=
  match resp with
  | None => (None, true)
  | Some r =>
      (Some {| Dhcpv4.ServerIPAddr := default [] (GoNet.To4 (NextServer p));
               Dhcpv4.Options := Dhcpv4.Options r |},
       false)
  end.

End NextServer.

(** ** The specification's vocabulary *)

Module Spec.

(** The architecture tags of the specification. *)
Inductive ArchitectureTag :=
  | x86_legacy | x86_64_EFI | ARM64_EFI | unknown | default.

(** The short form of a tag, used for textual embedding. *)
Definition shortForm (t : ArchitectureTag) : string :=
  match t with
  | x86_64_EFI => "x86"
  | ARM64_EFI => "arm64"
  | x86_legacy => "x86legacy"
  | unknown => "unknown"
  | default => "default"
  end.

(** The classifier as the specification words it: the empty list yields
    [default], otherwise the first code decides. *)
Definition classify (archCodes : list Iana.Arch) : ArchitectureTag :=
  match archCodes with
  | [] => default
  | code :: _ =>
      if bool_decide (code = Iana.EFI_X86_64) then x86_64_EFI
      else if bool_decide (code = Iana.EFI_ARM64) then ARM64_EFI
      else if bool_decide (code = Iana.INTEL_X86PC) then x86_legacy
      else unknown
  end.

(** The fixed table of bootloader file names, keyed on the short form. *)
Definition bootloader (short : string) : string :=
  if bool_decide (short = "x86") then "grubx64.efi"
  else if bool_decide (short = "arm64") then "grubaa64.efi"
  else if bool_decide (short = "x86legacy") then "grub.0"
  else "unknown.efi".

(** [Substituted a e p q]: [q] is [p] with every occurrence of ["{arch}"]
    replaced by [a] and every occurrence of ["{efi}"] replaced by [e], all
    other bytes being kept, reading [p] from left to right. *)
Inductive Substituted (a e : string) : string → string → Prop :=
  | Sub_end : Substituted a e "" ""
  | Sub_arch p q :
      Substituted a e p q →
      Substituted a e ("{arch}" +:+ p) (a +:+ q)
  | Sub_efi p q :
      Substituted a e p q →
      Substituted a e ("{efi}" +:+ p) (e +:+ q)
  | Sub_keep c p q :
      String.prefix "{arch}" (String c p) = false →
      String.prefix "{efi}" (String c p) = false →
      Substituted a e p q →
      Substituted a e (String c p) (String c q).

(** The allow-set of the specification: the trimmed, lower-cased forms of
    the configured entries, the empty ones left out. *)
Definition allowSet `{UnicodeTables} (args : list string) : gset string :=
  list_to_set
    (filter (λ s, s ≠ "") ((λ a, GoStrings.ToLower (GoStrings.TrimSpace a)) <$> args)).

(** Two texts that differ at most in the case of their ASCII letters. *)
Definition CasePermutation (s t : string) : Prop :=
  GoStrings.isASCII s = true ∧ GoStrings.isASCII t = true ∧
  GoStrings.mapBytes GoStrings.lowerByte s = GoStrings.mapBytes GoStrings.lowerByte t.

End Spec.

(** ** Sample configurations and packets *)

Module Sample.
Import GoURL.

(** The allow-list of the specification's end-to-end scenario. *)
Definition allowArgs : list string := ["00:11:22:33:44:55"].

Definition macListed : GoNet.HardwareAddr := [x00; x11; x22; x33; x44; x55].
Definition macOther : GoNet.HardwareAddr := [x00; x00; x00; x00; x00; x00].

(** A DHCPv4 request from [mac] advertising [archs] and asking for the
    option codes [wanted]. *)
Definition request4 (mac : GoNet.HardwareAddr) (archs : list Iana.Arch)
    (wanted : list Dhcpv4.OptionCode) : Dhcpv4.Request :=
  {| Dhcpv4.ClientHWAddr := mac;
     Dhcpv4.ClientArch := archs;
     Dhcpv4.IsOptionRequested := λ code, bool_decide (code ∈ wanted) |}.

(** The DHCPv4 request the codec presents for a packet from [mac] that
    advertises [archs] and whose parameter request list is [rq]. *)
Definition request4From (mac : GoNet.HardwareAddr) (archs : list Iana.Arch)
    (rq : option (list Dhcpv4.OptionCode)) : Dhcpv4.Request :=
  {| Dhcpv4.ClientHWAddr := mac;
     Dhcpv4.ClientArch := archs;
     Dhcpv4.IsOptionRequested := Dhcpv4.isOptionRequested rq |}.

Definition reply4 : Dhcpv4.Reply :=
  {| Dhcpv4.ServerIPAddr := [x0a; x00; x00; x01]; Dhcpv4.Options := ∅ |}.

(** A DHCPv6 request whose hardware address extraction gives [mac] and
    whose inner message asks for the option codes [wanted]. *)
Definition request6 (mac : GoNet.HardwareAddr + error)
    (wanted : list Dhcpv6.OptionCode) : Dhcpv6.Request :=
  {| Dhcpv6.ExtractMAC := mac;
     Dhcpv6.GetInnerMessage := inl {| Dhcpv6.RequestedOptions := wanted |} |}.

Definition reply6 : Dhcpv6.Reply := {| Dhcpv6.Options := [] |}.

(** A parsed URL with a scheme, a host and a path; [url.Parse] keeps the
    path in [RawPath] too when it differs from its default encoding, as it
    does for a path with braces. *)
Definition template (scheme host path rawPath : string) : URL :=
  {| Scheme := scheme; Opaque := ""; User := None; Host := host;
     Path := path; RawPath := rawPath; OmitHost := false; ForceQuery := false;
     RawQuery := ""; Fragment := ""; RawFragment := "" |}.

(** The result of [url.Parse("tftp://10.0.0.1/pxe/{arch}")]. *)
Definition tftpTemplate : URL :=
  template "tftp" "10.0.0.1" "/pxe/{arch}" "/pxe/{arch}".

(** The result of [url.Parse("http://boot.example/{arch}.ipxe")]. *)
Definition httpTemplate : URL :=
  template "http" "boot.example" "/{arch}.ipxe" "/{arch}.ipxe".

(** The package variables of [nbp] after
    [setup6("http://[2001:db8:a::1]/nbp")]. *)
Definition nbpConfigured : Nbp.Globals :=
  {| Nbp.opt59 := Some (Dhcpv6.OptBootFileURL "http://[2001:db8:a::1]/nbp");
     Nbp.opt60 := None; Nbp.opt66 := None; Nbp.opt67 := None |}.

(** The package variables of [nbp] after
    [setup6("http://boot.example/nbp?params=quiet")]. *)
Definition nbpWithParams : Nbp.Globals :=
  {| Nbp.opt59 := Some (Dhcpv6.OptBootFileURL "http://boot.example/nbp?params=quiet");
     Nbp.opt60 := Some {| Dhcpv6.Code := Dhcpv6.OptionBootfileParam;
                          Dhcpv6.Data := "quiet" |};
     Nbp.opt66 := None; Nbp.opt67 := None |}.

(** The result of [url.Parse("http://boot.example/nbp?params=quiet")]. *)
Definition paramsTemplate : URL :=
  {| Scheme := "http"; Opaque := ""; User := None; Host := "boot.example";
     Path := "/nbp"; RawPath := ""; OmitHost := false; ForceQuery := false;
     RawQuery := "params=quiet"; Fragment := ""; RawFragment := "" |}.

(** The tftp template with a query string added. *)
Definition tftpTemplateWithQuery : URL :=
  {| Scheme := "tftp"; Opaque := ""; User := None; Host := "10.0.0.1";
     Path := "/pxe/{arch}"; RawPath := "/pxe/{arch}"; OmitHost := false;
     ForceQuery := false; RawQuery := "v=2"; Fragment := ""; RawFragment := "" |}.

(** A DHCPv6 request that cannot be decapsulated. *)
Definition request6Broken : Dhcpv6.Request :=
  {| Dhcpv6.ExtractMAC := inl macListed;
     Dhcpv6.GetInnerMessage := inr "not a relay message" |}.

(** The 16-byte form of 10.0.0.254. *)
Definition ip10_0_0_254 : GoNet.IP :=
  [x00; x00; x00; x00; x00; x00; x00; x00; x00; x00; xff; xff; x0a; x00; x00; xfe].

(** A [url.Parse] and a [Query().Get] that know the two templates above
    and one DHCPv6 boot URL with a parameter. *)
Definition sampleURLs : NetURL :=
  {| Parse := λ raw,
       if String.eqb raw "tftp://10.0.0.1/pxe/{arch}" then inl tftpTemplate
       else if String.eqb raw "http://boot.example/{arch}.ipxe" then inl httpTemplate
       else if String.eqb raw "http://boot.example/nbp?params=quiet" then
         inl paramsTemplate
       else inr "parse: not a sample URL";
     Query_Get := λ u key,
       if String.eqb (RawQuery u) "params=quiet" && String.eqb key "params"
       then "quiet" else "" |}.

(** A [net.ParseIP] that knows one IPv4 and one IPv6 address; Go returns
    the 16-byte form for both. *)
Definition sampleIPs : NetIP :=
  {| ParseIP := λ s,
       if String.eqb s "10.0.0.254" then Some ip10_0_0_254
       else if String.eqb s "2001:db8::1" then
         Some [x20; x01; x0d; xb8; x00; x00; x00; x00; x00; x00; x00; x00;
               x00; x00; x00; x01]
       else None |}.

End Sample.

(** * Properties *)

(** Split on every decision in the goal; the cases left either hold by
    computation or have contradictory decisions. *)
Ltac decide_cases :=
  repeat case_decide;
  first [ reflexivity
        | exfalso; intuition (subst; first [discriminate | congruence | auto]) ].

(** ** Byte strings *)

Section StringFacts.
Import GoStrings.

Lemma length_zero_iff_empty (s : string) :
  Nat.ltb 0 (String.length s) = false ↔ s = "".
Proof. destruct s; split; intros E; (reflexivity || discriminate). Qed.

Lemma lowerByte_ascii c : isASCIIByte (lowerByte c) = isASCIIByte c.
Proof. destruct c as [[] [] [] [] [] [] [] []]; reflexivity. Qed.

Lemma lowerByte_space c : asciiSpace (lowerByte c) = asciiSpace c.
Proof. destruct c as [[] [] [] [] [] [] [] []]; reflexivity. Qed.

Lemma lowerByte_not_upper c : isUpperByte c = false → lowerByte c = c.
Proof. unfold lowerByte. intros ->. reflexivity. Qed.

Lemma lowerByte_idem c : lowerByte (lowerByte c) = lowerByte c.
Proof. destruct c as [[] [] [] [] [] [] [] []]; reflexivity. Qed.

Lemma mapBytes_lower_ascii s : isASCII (mapBytes lowerByte s) = isASCII s.
Proof.
  induction s as [|c s IH]; [reflexivity|].
  unfold isASCII in *. simpl. rewrite lowerByte_ascii, IH. reflexivity.
Qed.

Lemma mapBytes_lower_no_upper s :
  hasUpper s = false → mapBytes lowerByte s = s.
Proof.
  induction s as [|c s IH]; [reflexivity|].
  unfold hasUpper in *. simpl. intros [Hc Hs]%orb_false_iff.
  rewrite lowerByte_not_upper, IH; auto.
Qed.

(** On ASCII input [ToLower] maps every byte. *)
Lemma ToLower_ascii `{UnicodeTables} s :
  isASCII s = true → ToLower s = mapBytes lowerByte s.
Proof.
  intros Hs. unfold ToLower. rewrite Hs.
  destruct (hasUpper s) eqn:Hu; [reflexivity|].
  symmetry. apply mapBytes_lower_no_upper, Hu.
Qed.

Lemma trimStart_ascii s :
  isASCII s = true →
  fst (trimStart s) = false ∧ isASCII (snd (trimStart s)) = true.
Proof.
  induction s as [|c s IH]; [auto|].
  unfold isASCII in *. simpl. intros [Hc Hs]%andb_true_iff.
  rewrite Hc. simpl. destruct (asciiSpace c); [auto|].
  simpl. rewrite Hc, Hs. auto.
Qed.

Lemma trimStop_ascii s :
  isASCII s = true →
  fst (trimStop s) = false ∧ isASCII (snd (trimStop s)) = true.
Proof.
  induction s as [|c s IH]; [auto|].
  unfold isASCII in *. simpl. intros [Hc Hs]%andb_true_iff.
  destruct (IH Hs) as [Hf Ha].
  destruct (trimStop s) as [f [|d t]]; simpl in *.
  - rewrite Hc. simpl. destruct (asciiSpace c); simpl; rewrite ?Hc; auto.
  - rewrite Hc, Ha. auto.
Qed.

Lemma TrimSpace_ascii `{UnicodeTables} s :
  isASCII s = true → TrimSpace s = asciiTrim s ∧ isASCII (asciiTrim s) = true.
Proof.
  intros Hs. unfold TrimSpace, asciiTrim.
  destruct (trimStart_ascii s Hs) as [Hf Ha].
  destruct (trimStart s) as [f rest]. simpl in *. subst f.
  destruct (trimStop_ascii rest Ha) as [Hg Hb].
  destruct (trimStop rest) as [g mid]. simpl in *. subst g. auto.
Qed.

Lemma trimStart_lower s :
  isASCII s = true →
  trimStart (mapBytes lowerByte s) = (false, mapBytes lowerByte (snd (trimStart s))).
Proof.
  induction s as [|c s IH]; [reflexivity|].
  unfold isASCII in *. simpl. intros [Hc Hs]%andb_true_iff.
  rewrite lowerByte_ascii, lowerByte_space, Hc. simpl.
  destruct (asciiSpace c); auto.
Qed.

Lemma trimStop_lower s :
  isASCII s = true →
  trimStop (mapBytes lowerByte s) = (false, mapBytes lowerByte (snd (trimStop s))).
Proof.
  induction s as [|c s IH]; [reflexivity|].
  unfold isASCII in *. simpl. intros [Hc Hs]%andb_true_iff.
  rewrite (IH Hs).
  destruct (trimStop_ascii s Hs) as [Hf _].
  destruct (trimStop s) as [f [|d t]]; simpl in *; subst f.
  - rewrite lowerByte_ascii, lowerByte_space, Hc. simpl.
    destruct (asciiSpace c); reflexivity.
  - reflexivity.
Qed.

Lemma asciiTrim_lower s :
  isASCII s = true →
  asciiTrim (mapBytes lowerByte s) = mapBytes lowerByte (asciiTrim s).
Proof.
  intros Hs. unfold asciiTrim.
  rewrite (trimStart_lower s Hs). simpl.
  rewrite trimStop_lower; [reflexivity|].
  apply trimStart_ascii, Hs.
Qed.

(** Entries that differ only in case are normalised to the same key. *)
Lemma normalise_case_permutation `{UnicodeTables} a b :
  Spec.CasePermutation a b →
  ToLower (TrimSpace a) = ToLower (TrimSpace b).
Proof.
  intros (Ha & Hb & Hab).
  destruct (TrimSpace_ascii a Ha) as [-> Hta].
  destruct (TrimSpace_ascii b Hb) as [-> Htb].
  rewrite !ToLower_ascii by assumption.
  rewrite <- !asciiTrim_lower by assumption.
  rewrite Hab. reflexivity.
Qed.

Lemma prefix_app (x s : string) : String.prefix x (x +:+ s) = true.
Proof.
  induction x as [|c x IH].
  - change ("" +:+ s) with s. destruct s; reflexivity.
  - change (String c x +:+ s) with (String c (x +:+ s)). simpl.
    destruct (ascii_dec c c); [exact IH | congruence].
Qed.

Lemma prefix_cons (a b : ascii) (x s : string) :
  String.prefix (String a x) (String b s) =
    if Ascii.eqb a b then String.prefix x s else false.
Proof.
  cbn [String.prefix].
  destruct (ascii_dec a b) as [-> | Hne].
  - rewrite Ascii.eqb_refl. reflexivity.
  - apply Ascii.eqb_neq in Hne. rewrite Hne. reflexivity.
Qed.

Lemma prefix_split (x s : string) :
  String.prefix x s = true → ∃ r, s = x +:+ r.
Proof.
  revert s. induction x as [|c x IH]; intros s Hp.
  - exists s. reflexivity.
  - destruct s as [|d s]; simpl in Hp; [discriminate|].
    destruct (ascii_dec c d) as [->|]; [|discriminate].
    destruct (IH s Hp) as [r ->]. exists r. reflexivity.
Qed.

Lemma replaceFrom_skip old new x s :
  replaceFrom old new (String.length x) (x +:+ s) = replaceFrom old new O s.
Proof. induction x as [|c x IH]; simpl; [reflexivity | exact IH]. Qed.

Lemma ReplaceAll_empty old new : old ≠ "" → ReplaceAll "" old new = "".
Proof. destruct old; [congruence | reflexivity]. Qed.

(** A match of [old] at the front is replaced, the search resumes after it. *)
Lemma ReplaceAll_match old new s :
  old ≠ "" → ReplaceAll (old +:+ s) old new = new +:+ ReplaceAll s old new.
Proof.
  destruct old as [|c old]; [congruence|]. intros _.
  unfold ReplaceAll.
  change (String c old +:+ s) with (String c (old +:+ s)).
  cbn [replaceFrom].
  change (String c (old +:+ s)) with (String c old +:+ s).
  rewrite prefix_app. cbn [String.length Nat.pred].
  rewrite replaceFrom_skip. reflexivity.
Qed.

(** Where [old] does not match, one byte is kept. *)
Lemma ReplaceAll_keep old new c s :
  old ≠ "" → String.prefix old (String c s) = false →
  ReplaceAll (String c s) old new = String c (ReplaceAll s old new).
Proof.
  destruct old as [|d old]; [congruence|]. intros _ Hp.
  unfold ReplaceAll. cbn [replaceFrom]. rewrite Hp. reflexivity.
Qed.

End StringFacts.

(** ** Admission control: package [whitelist] *)

Section WhitelistFacts.
Import GoStrings GoNet Whitelist.
Context `{UnicodeTables}.

Lemma elem_of_allowSet (args : list string) (s : string) :
  s ∈ Spec.allowSet args ↔ s ≠ "" ∧ ∃ a, a ∈ args ∧ ToLower (TrimSpace a) = s.
Proof.
  unfold Spec.allowSet.
  rewrite elem_of_list_to_set, list_elem_of_filter, list_elem_of_fmap.
  split.
  - intros (Hne & a & -> & Ha). eauto.
  - intros (Hne & a & Ha & <-). eauto.
Qed.

Lemma allowSet_cons (a : string) (args : list string) (s : string) :
  s ∈ Spec.allowSet (a :: args) ↔
  (ToLower (TrimSpace a) = s ∧ s ≠ "") ∨ s ∈ Spec.allowSet args.
Proof.
  rewrite !elem_of_allowSet. setoid_rewrite elem_of_cons.
  split.
  - intros (Hne & b & [-> | Hb] & Hs); eauto.
  - intros [[Hs Hne] | (Hne & b & Hb & Hs)]; eauto.
Qed.

Lemma addArg_lookup (m : gmap string bool) (a s : string) :
  addArg m a !! s =
    if decide (ToLower (TrimSpace a) = s ∧ s ≠ "") then Some true else m !! s.
Proof.
  unfold addArg.
  destruct (Nat.ltb 0 (String.length (ToLower (TrimSpace a)))) eqn:Hlen.
  - assert (ToLower (TrimSpace a) ≠ "") as Hne.
    { intros E. rewrite E in Hlen. discriminate. }
    destruct (decide (ToLower (TrimSpace a) = s)) as [<- | Hs].
    + rewrite lookup_insert_eq. rewrite decide_True; auto.
    + rewrite lookup_insert_ne by assumption. rewrite decide_False; tauto.
  - apply length_zero_iff_empty in Hlen.
    rewrite decide_False; [reflexivity|].
    intros [Hs Hne]. congruence.
Qed.

Lemma foldl_addArg_lookup (args : list string) (m : gmap string bool) (s : string) :
  foldl addArg m args !! s =
    if decide (s ∈ Spec.allowSet args) then Some true else m !! s.
Proof.
  revert m. induction args as [|a args IH]; intros m; simpl.
  - rewrite decide_False; [reflexivity|].
    rewrite elem_of_allowSet. intros (_ & b & Hb & _). inversion Hb.
  - rewrite IH, addArg_lookup.
    destruct (decide (s ∈ Spec.allowSet args)) as [Hin | Hnin].
    + rewrite decide_True; [reflexivity|]. apply allowSet_cons. auto.
    + destruct (decide (ToLower (TrimSpace a) = s ∧ s ≠ "")) as [Ha | Hna].
      * rewrite decide_True; [reflexivity|]. apply allowSet_cons. auto.
      * rewrite decide_False; [reflexivity|]. rewrite allowSet_cons. tauto.
Qed.

(** The map built at setup holds exactly the allow-set, every entry with
    the value [true]. *)
Lemma parseMACs_lookup (args : list string) (s : string) :
  parseMACs args !! s = if decide (s ∈ Spec.allowSet args) then Some true else None.
Proof. unfold parseMACs. rewrite foldl_addArg_lookup, lookup_empty. reflexivity. Qed.

Lemma parseMACs_empty_iff (args : list string) :
  parseMACs args = ∅ ↔ Spec.allowSet args = ∅.
Proof.
  rewrite map_empty. split.
  - intros Hm. apply set_eq. intros s. split; [|set_solver].
    intros Hs. specialize (Hm s). rewrite parseMACs_lookup, decide_True in Hm by assumption.
    discriminate.
  - intros HL s. rewrite parseMACs_lookup, decide_False; [reflexivity|].
    rewrite HL. set_solver.
Qed.

Lemma configured_not_empty (args : list string) :
  Spec.allowSet args ≠ ∅ →
  isNil (Some (parseMACs args)) || Nat.eqb (mapLen (Some (parseMACs args))) 0 = false.
Proof.
  intros HL. simpl. apply Nat.eqb_neq.
  rewrite map_size_empty_iff, parseMACs_empty_iff. exact HL.
Qed.

Lemma mapIndex_parseMACs (args : list string) (s : string) :
  mapIndex (Some (parseMACs args)) s = bool_decide (s ∈ Spec.allowSet args).
Proof.
  simpl. rewrite parseMACs_lookup.
  destruct (decide (s ∈ Spec.allowSet args)).
  - rewrite bool_decide_eq_true_2; auto.
  - rewrite bool_decide_eq_false_2; auto.
Qed.

Lemma Handler4_configured (args : list string) req resp :
  Spec.allowSet args ≠ ∅ →
  Handler4 (Some (parseMACs args)) req resp =
    if decide (ToLower (HardwareAddr_String (Dhcpv4.ClientHWAddr req)) ∈ Spec.allowSet args)
    then (resp, false) else (None, true).
Proof.
  intros HL. unfold Handler4.
  rewrite (configured_not_empty args HL), mapIndex_parseMACs.
  destruct (decide _) as [Hin | Hnin].
  - rewrite bool_decide_eq_true_2; auto.
  - rewrite bool_decide_eq_false_2; auto.
Qed.

Lemma Handler6_configured (args : list string) req resp :
  Spec.allowSet args ≠ ∅ →
  Handler6 (Some (parseMACs args)) req resp =
    match Dhcpv6.ExtractMAC req with
    | inl mac =>
        if decide (ToLower (HardwareAddr_String mac) ∈ Spec.allowSet args)
        then (resp, false) else (None, true)
    | inr _ => (None, true)
    end.
Proof.
  intros HL. unfold Handler6.
  rewrite (configured_not_empty args HL).
  destruct (Dhcpv6.ExtractMAC req) as [mac | err]; [|reflexivity].
  rewrite mapIndex_parseMACs.
  destruct (decide _) as [Hin | Hnin].
  - rewrite bool_decide_eq_true_2; auto.
  - rewrite bool_decide_eq_false_2; auto.
Qed.

Lemma foldl_addArg_case_permutation (args args' : list string) (m : gmap string bool) :
  Forall2 Spec.CasePermutation args args' →
  foldl addArg m args' = foldl addArg m args.
Proof.
  intros HF. revert m. induction HF as [|a b args args' Hab _ IH]; intros m.
  - reflexivity.
  - simpl. rewrite IH. f_equal. unfold addArg.
    rewrite (normalise_case_permutation a b Hab). reflexivity.
Qed.

Lemma hexDigit_lower (b : byte) :
  let hi := hexDigitAt (N.shiftr (Byte.to_N b) 4) in
  let lo := hexDigitAt (N.land (Byte.to_N b) 0xF) in
  isASCIIByte hi && isASCIIByte lo && negb (isUpperByte hi) && negb (isUpperByte lo) = true.
Proof. destruct b; reflexivity. Qed.

Lemma appendHex_lower (a : list byte) (i : nat) :
  isASCII (appendHex i a) = true ∧ hasUpper (appendHex i a) = false.
Proof.
  revert i. induction a as [|b a IH]; intros i; [auto|].
  destruct (IH (S i)) as [Ha Hu].
  pose proof (hexDigit_lower b) as Hb. simpl in Hb.
  apply andb_true_iff in Hb as [Hb Hlo]. apply andb_true_iff in Hb as [Hb Hhi].
  apply andb_true_iff in Hb as [Hah Hal].
  apply negb_true_iff in Hlo, Hhi.
  unfold isASCII, hasUpper in *.
  destruct i; cbn [appendHex allBytes anyByte];
    rewrite ?Hah, ?Hal, ?Hlo, ?Hhi, ?Ha, ?Hu; auto.
Qed.

(** The text form of a hardware address is lower-case already. *)
Lemma HardwareAddr_String_lower (mac : HardwareAddr) :
  ToLower (HardwareAddr_String mac) = HardwareAddr_String mac.
Proof.
  unfold ToLower, HardwareAddr_String.
  destruct mac as [|b mac]; [reflexivity|].
  destruct (appendHex_lower (b :: mac) O) as [-> ->]. reflexivity.
Qed.

End WhitelistFacts.

Section Admission.
Import GoStrings GoNet Whitelist.
Context `{UnicodeTables}.

(** C1.  For a configured allow-set that is not empty, [Handler4] and
    [Handler6] return the reply with [stop = false] exactly when the
    lower-cased text form of the request's hardware address is in the
    allow-set (the trimmed, lower-cased configured entries), and return
    [nil] with [stop = true] otherwise.  [setup4] on the unset variable
    and [setup6] build the same set.  The text form of an address is
    lower-case already, and entries that differ only in case give the same
    set, hence the same decisions. *)
Theorem admission_iff_member (g : Globals) (args : list string)
    (req4 : Dhcpv4.Request) (resp4 : option Dhcpv4.Reply)
    (req6 : Dhcpv6.Request) (resp6 : option Dhcpv6.Reply) :
  Spec.allowSet args ≠ ∅ →
  let wl := setup6 g args in
  let key4 := ToLower (HardwareAddr_String (Dhcpv4.ClientHWAddr req4)) in
  let listed6 := ∃ mac, Dhcpv6.ExtractMAC req6 = inl mac
                   ∧ ToLower (HardwareAddr_String mac) ∈ Spec.allowSet args in
  setup4 None args = wl
  ∧ (Handler4 wl req4 resp4 = (resp4, false) ↔ key4 ∈ Spec.allowSet args)
  ∧ (key4 ∉ Spec.allowSet args → Handler4 wl req4 resp4 = (None, true))
  ∧ (Handler6 wl req6 resp6 = (resp6, false) ↔ listed6)
  ∧ (¬ listed6 → Handler6 wl req6 resp6 = (None, true))
  ∧ (∀ mac, ToLower (HardwareAddr_String mac) = HardwareAddr_String mac)
  ∧ (∀ args', Forall2 Spec.CasePermutation args args' → setup6 g args' = wl).
Proof.
  intros HL wl key4 listed6. subst wl key4 listed6. unfold setup6, setup4. simpl.
  split; [reflexivity|].
  rewrite (Handler4_configured args req4 resp4 HL).
  rewrite (Handler6_configured args req6 resp6 HL).
  repeat split.
  - destruct (decide _) as [Hin | Hnin]; [auto | discriminate].
  - intros Hin. rewrite decide_True by assumption. reflexivity.
  - intros Hnin. rewrite decide_False by assumption. reflexivity.
  - destruct (Dhcpv6.ExtractMAC req6) as [mac | err]; [|discriminate].
    destruct (decide _) as [Hin | Hnin]; [eauto | discriminate].
  - intros (mac & -> & Hin). rewrite decide_True by assumption. reflexivity.
  - intros Hno. destruct (Dhcpv6.ExtractMAC req6) as [mac | err]; [|reflexivity].
    rewrite decide_False; [reflexivity|]. intros Hin. apply Hno. eauto.
  - apply HardwareAddr_String_lower.
  - intros args' HF. f_equal. unfold parseMACs.
    apply foldl_addArg_case_permutation, HF.
Qed.

(** C2.  When the allow-set is nil (never configured) or empty, both
    handlers return the reply unchanged with [stop = false]; a setup whose
    entries are all blank configures the empty set. *)
Theorem empty_allow_set_allows (wl : Globals)
    (req4 : Dhcpv4.Request) (resp4 : option Dhcpv4.Reply)
    (req6 : Dhcpv6.Request) (resp6 : option Dhcpv6.Reply) :
  wl = None ∨ wl = Some ∅ →
  Handler4 wl req4 resp4 = (resp4, false)
  ∧ Handler6 wl req6 resp6 = (resp6, false)
  ∧ (∀ g args, Spec.allowSet args = ∅ →
       Handler4 (setup6 g args) req4 resp4 = (resp4, false)
       ∧ Handler6 (setup6 g args) req6 resp6 = (resp6, false)).
Proof.
  intros Hwl. split; [|split].
  - destruct Hwl as [-> | ->]; reflexivity.
  - destruct Hwl as [-> | ->]; reflexivity.
  - intros g args HL. apply parseMACs_empty_iff in HL.
    unfold setup6. rewrite HL. split; reflexivity.
Qed.

(** C4.  With a non-empty allow-set, a DHCPv6 request whose hardware
    address cannot be extracted is rejected: [Handler6] returns [nil] with
    [stop = true]. *)
Theorem extraction_failure_rejects (wl : Globals)
    (req : Dhcpv6.Request) (resp : option Dhcpv6.Reply) (err : error) :
  mapLen wl ≠ O →
  Dhcpv6.ExtractMAC req = inr err →
  Handler6 wl req resp = (None, true).
Proof.
  intros Hlen Herr. unfold Handler6.
  destruct wl as [m|]; [|contradiction].
  simpl in *. apply Nat.eqb_neq in Hlen. rewrite Hlen, Herr. reflexivity.
Qed.

End Admission.

(** The allow-set of the sample configuration holds the listed address. *)
Lemma sample_allowSet_listed :
  "00:11:22:33:44:55" ∈ Spec.allowSet (H := asciiTables) Sample.allowArgs.
Proof.
  apply elem_of_allowSet. split; [discriminate|].
  exists "00:11:22:33:44:55". split; [left | reflexivity].
Qed.

Lemma sample_allowSet_not_empty :
  Spec.allowSet (H := asciiTables) Sample.allowArgs ≠ ∅.
Proof.
  intros E. pose proof sample_allowSet_listed as Hin. rewrite E in Hin.
  set_solver.
Qed.

(** The end-to-end scenario of the specification: the listed address is
    allowed, the all-zero address is dropped. *)
Lemma admission_iff_member_witness :
  Spec.allowSet (H := asciiTables) Sample.allowArgs ≠ ∅
  ∧ Whitelist.Handler4 (H := asciiTables)
      (Whitelist.setup6 (H := asciiTables) None Sample.allowArgs)
      (Sample.request4 Sample.macListed [] []) (Some Sample.reply4)
    = (Some Sample.reply4, false).
Proof.
  split; [exact sample_allowSet_not_empty|].
  apply (admission_iff_member (H := asciiTables) None Sample.allowArgs
           (Sample.request4 Sample.macListed [] []) (Some Sample.reply4)
           (Sample.request6 (inl Sample.macListed) []) (Some Sample.reply6)
           sample_allowSet_not_empty).
  exact sample_allowSet_listed.
Defined.

Lemma empty_allow_set_allows_witness :
  (@None (gmap string bool) = None ∨ @None (gmap string bool) = Some ∅)
  ∧ Whitelist.Handler4 (H := asciiTables) None
      (Sample.request4 Sample.macOther [] []) (Some Sample.reply4)
    = (Some Sample.reply4, false)
  ∧ Whitelist.Handler6 (H := asciiTables) None
      (Sample.request6 (inr "no hardware address") []) (Some Sample.reply6)
    = (Some Sample.reply6, false).
Proof.
  split; [left; reflexivity|].
  destruct (empty_allow_set_allows (H := asciiTables) None
              (Sample.request4 Sample.macOther [] []) (Some Sample.reply4)
              (Sample.request6 (inr "no hardware address") []) (Some Sample.reply6)
              (or_introl eq_refl)) as (H4 & H6 & _).
  split; [exact H4 | exact H6].
Defined.

Lemma extraction_failure_rejects_witness :
  Whitelist.mapLen (Some {["aa:bb:cc:dd:ee:ff" := true]}) ≠ O
  ∧ Dhcpv6.ExtractMAC (Sample.request6 (inr "no hardware address") [])
    = inr "no hardware address"
  ∧ Whitelist.Handler6 (H := asciiTables) (Some {["aa:bb:cc:dd:ee:ff" := true]})
      (Sample.request6 (inr "no hardware address") []) (Some Sample.reply6)
    = (None, true).
Proof.
  assert (Whitelist.mapLen (Some {["aa:bb:cc:dd:ee:ff" := true]}) ≠ O) as Hlen.
  { simpl. rewrite map_size_singleton. discriminate. }
  split; [exact Hlen|]. split; [reflexivity|].
  apply (extraction_failure_rejects (H := asciiTables) _ _ _ "no hardware address" Hlen).
  reflexivity.
Defined.

(** ** Boot resolution: package [nbp] *)

Section Substitution.
Import GoStrings GoURL Nbp.

Lemma length_append (x s : string) :
  String.length (x +:+ s) = (String.length x + String.length s)%nat.
Proof. induction x as [|c x IH]; [reflexivity|]. simpl. f_equal. exact IH. Qed.

Lemma arch_literal_not_empty : "{arch}" ≠ "".
Proof. discriminate. Qed.

Lemma efi_literal_not_empty : "{efi}" ≠ "".
Proof. discriminate. Qed.

(** A text without an opening brace holds no start of ["{efi}"]. *)
Lemma replace_efi_after_plain (a e s : string) :
  allBytes (λ c, negb (Ascii.eqb c "{")) a = true →
  ReplaceAll (a +:+ s) "{efi}" e = a +:+ ReplaceAll s "{efi}" e.
Proof.
  induction a as [|c a IH]; [reflexivity|].
  cbn [allBytes]. intros [Hc Ha]%andb_true_iff.
  change (String c a +:+ s) with (String c (a +:+ s)).
  rewrite ReplaceAll_keep, (IH Ha); [reflexivity | discriminate |].
  rewrite prefix_cons, Ascii.eqb_sym.
  apply negb_true_iff in Hc. rewrite Hc. reflexivity.
Qed.

(** The bytes of ["{efi}"] are not matched by ["{arch}"]. *)
Lemma replace_arch_over_efi (a s : string) :
  ReplaceAll ("{efi}" +:+ s) "{arch}" a = "{efi}" +:+ ReplaceAll s "{arch}" a.
Proof.
  change ("{efi}" +:+ s)
    with (String "{" (String "e" (String "f" (String "i" (String "}" s))))).
  rewrite !ReplaceAll_keep by (discriminate || reflexivity).
  reflexivity.
Qed.

(** Replacing ["{arch}"] by a text whose first byte [h] does not occur in
    [x] cannot make [x] appear at the front. *)
Lemma replace_arch_prefix_inv (h : ascii) (a' x : string) :
  allBytes (λ c, negb (Ascii.eqb c h)) x = true →
  ∀ r, String.prefix x (ReplaceAll r "{arch}" (String h a')) = true →
       String.prefix x r = true.
Proof.
  induction x as [|d x IH]; intros Hx r Hp.
  - destruct r; reflexivity.
  - cbn [allBytes] in Hx. apply andb_true_iff in Hx as [Hd Hx].
    apply negb_true_iff in Hd.
    destruct r as [|c r].
    + rewrite ReplaceAll_empty in Hp by discriminate. discriminate.
    + destruct (String.prefix "{arch}" (String c r)) eqn:Harch.
      * destruct (prefix_split _ _ Harch) as [r' Hr]. rewrite Hr in Hp.
        rewrite ReplaceAll_match in Hp by discriminate.
        change (String h a' +:+ ReplaceAll r' "{arch}" (String h a'))
          with (String h (a' +:+ ReplaceAll r' "{arch}" (String h a'))) in Hp.
        rewrite prefix_cons, Hd in Hp. discriminate.
      * rewrite ReplaceAll_keep in Hp by (discriminate || assumption).
        rewrite prefix_cons in Hp |- *.
        destruct (Ascii.eqb d c); [|discriminate]. apply IH; assumption.
Qed.

(** The two passes of [ReplaceAll] replace every occurrence of both
    placeholders and keep every other byte. *)
Lemma two_passes_substituted (h : ascii) (a' e : string) :
  allBytes (λ c, negb (Ascii.eqb c h)) "efi}" = true →
  allBytes (λ c, negb (Ascii.eqb c "{")) (String h a') = true →
  ∀ p, Spec.Substituted (String h a') e p
         (ReplaceAll (ReplaceAll p "{arch}" (String h a')) "{efi}" e).
Proof.
  intros Hh Hplain p.
  remember (String.length p) as n eqn:Hn. revert p Hn.
  induction n as [n IH] using lt_wf_ind. intros p Hn.
  destruct p as [|c r].
  - rewrite !ReplaceAll_empty by discriminate. constructor.
  - destruct (String.prefix "{arch}" (String c r)) eqn:Harch.
    + destruct (prefix_split _ _ Harch) as [r' Hr]. rewrite Hr in Hn |- *.
      rewrite ReplaceAll_match by discriminate.
      rewrite replace_efi_after_plain by assumption.
      apply Spec.Sub_arch. apply (IH (String.length r')); [|reflexivity].
      rewrite Hn, length_append. simpl. lia.
    + destruct (String.prefix "{efi}" (String c r)) eqn:Hefi.
      * destruct (prefix_split _ _ Hefi) as [r' Hr]. rewrite Hr in Hn |- *.
        rewrite replace_arch_over_efi.
        rewrite ReplaceAll_match by discriminate.
        apply Spec.Sub_efi. apply (IH (String.length r')); [|reflexivity].
        rewrite Hn, length_append. simpl. lia.
      * rewrite (ReplaceAll_keep "{arch}") by (discriminate || assumption).
        assert (String.prefix "{efi}"
                  (String c (ReplaceAll r "{arch}" (String h a'))) = false) as Hk.
        { destruct (String.prefix "{efi}"
                      (String c (ReplaceAll r "{arch}" (String h a')))) eqn:Hp;
            [|reflexivity].
          rewrite prefix_cons in Hp, Hefi.
          destruct (Ascii.eqb "{" c); [|discriminate].
          apply (replace_arch_prefix_inv h a' "efi}" Hh) in Hp.
          congruence. }
        rewrite (ReplaceAll_keep "{efi}") by (discriminate || assumption).
        apply Spec.Sub_keep; [assumption | assumption |].
        apply (IH (String.length r)); [|reflexivity].
        rewrite Hn. simpl. lia.
Qed.

(** [Spec.Substituted] determines the result: at each position exactly one
    of its rules applies. *)
Lemma Substituted_functional (a e p q1 q2 : string) :
  Spec.Substituted a e p q1 → Spec.Substituted a e p q2 → q1 = q2.
Proof.
  intros H1. revert q2.
  induction H1 as [|p q _ IH|p q _ IH|c p q Harch Hefi _ IH]; intros q2 H2.
  - inversion H2. reflexivity.
  - remember ("{arch}" +:+ p) as s eqn:Hs.
    destruct H2 as [|p' q' H2|p' q' H2|c' p' q' Harch' Hefi' H2].
    + discriminate.
    + apply (inj (String.app "{arch}")) in Hs as ->. f_equal. apply IH, H2.
    + discriminate.
    + rewrite Hs, prefix_app in Harch'. discriminate.
  - remember ("{efi}" +:+ p) as s eqn:Hs.
    destruct H2 as [|p' q' H2|p' q' H2|c' p' q' Harch' Hefi' H2].
    + discriminate.
    + discriminate.
    + apply (inj (String.app "{efi}")) in Hs as ->. f_equal. apply IH, H2.
    + rewrite Hs, prefix_app in Hefi'. discriminate.
  - remember (String c p) as s eqn:Hs.
    destruct H2 as [|p' q' H2|p' q' H2|c' p' q' Harch' Hefi' H2].
    + discriminate.
    + rewrite prefix_app in Harch. discriminate.
    + rewrite prefix_app in Hefi. discriminate.
    + injection Hs as -> ->. f_equal. apply IH, H2.
Qed.

(** The path after the closure's substitutions, for each tag. *)
Lemma substitute_path (u : URL) (tag : Spec.ArchitectureTag) :
  Path (substitute u (Spec.shortForm tag)) =
    ReplaceAll (ReplaceAll (Path u) "{arch}" (Spec.shortForm tag))
      "{efi}" (Spec.bootloader (Spec.shortForm tag)).
Proof. destruct tag; reflexivity. Qed.

(** Only the path of the working copy differs from the template. *)
Lemma substitute_frame (u : URL) (archStr : string) :
  substitute u archStr = set_Path u (Path (substitute u archStr)).
Proof.
  unfold substitute.
  repeat match goal with |- context [if ?b then _ else _] => destruct b end;
    reflexivity.
Qed.

(** The classifier returns the short form of the specification's tag. *)
Lemma getArchString_classify (archs : list Iana.Arch) :
  getArchString archs = Spec.shortForm (Spec.classify archs).
Proof.
  destruct archs as [|a rest]; [reflexivity|].
  unfold getArchString, Spec.classify.
  destruct (N.eqb_spec a Iana.EFI_X86_64) as [-> | H1]; [reflexivity|].
  rewrite bool_decide_eq_false_2 by assumption.
  destruct (N.eqb_spec a Iana.EFI_ARM64) as [-> | H2]; [reflexivity|].
  rewrite bool_decide_eq_false_2 by assumption.
  destruct (N.eqb_spec a Iana.INTEL_X86PC) as [-> | H3]; [reflexivity|].
  rewrite bool_decide_eq_false_2 by assumption.
  reflexivity.
Qed.

(** C7.  For every template and architecture tag, the path of the working
    URL is the template's path with every occurrence of ["{arch}"] replaced
    by the tag's short form and every occurrence of ["{efi}"] replaced by
    the bootloader file name of the fixed table (x86: grubx64.efi, arm64:
    grubaa64.efi, x86legacy: grub.0, otherwise unknown.efi); the path
    ["/boot/{arch}/{efi}"] with the x86-64-EFI tag becomes
    ["/boot/x86/grubx64.efi"]. *)
Theorem placeholder_substitution (u : URL) (tag : Spec.ArchitectureTag) :
  let short := Spec.shortForm tag in
  Spec.Substituted short (Spec.bootloader short)
    (Path u) (Path (substitute u short))
  ∧ Spec.bootloader "x86" = "grubx64.efi"
  ∧ Spec.bootloader "arm64" = "grubaa64.efi"
  ∧ Spec.bootloader "x86legacy" = "grub.0"
  ∧ Spec.bootloader "unknown" = "unknown.efi"
  ∧ Spec.bootloader "default" = "unknown.efi"
  ∧ Path (substitute (set_Path u "/boot/{arch}/{efi}")
            (getArchString [Iana.EFI_X86_64]))
    = "/boot/x86/grubx64.efi".
Proof.
  intros short. subst short. split; [|repeat split; reflexivity].
  rewrite substitute_path.
  destruct tag; apply two_passes_substituted; reflexivity.
Qed.

(** C8.  The classifier is total: it returns the short form of one of the
    five tags for every list of codes.  The empty list gives the default
    tag; otherwise only the first code counts: EFI x86-64 gives x86-64-EFI
    (x86), EFI ARM64 gives ARM64-EFI (arm64), Intel x86 PC gives
    x86-legacy (x86legacy), any other code gives unknown. *)
Theorem classifier_total (archs : list Iana.Arch) (code : Iana.Arch)
    (rest : list Iana.Arch) :
  (∃ tag, getArchString archs = Spec.shortForm tag)
  ∧ getArchString archs = Spec.shortForm (Spec.classify archs)
  ∧ getArchString [] = Spec.shortForm Spec.default
  ∧ getArchString (code :: rest) = getArchString [code]
  ∧ getArchString (Iana.EFI_X86_64 :: rest) = Spec.shortForm Spec.x86_64_EFI
  ∧ getArchString (Iana.EFI_ARM64 :: rest) = Spec.shortForm Spec.ARM64_EFI
  ∧ getArchString (Iana.INTEL_X86PC :: rest) = Spec.shortForm Spec.x86_legacy
  ∧ (code ∉ [Iana.EFI_X86_64; Iana.EFI_ARM64; Iana.INTEL_X86PC] →
     getArchString (code :: rest) = Spec.shortForm Spec.unknown).
Proof.
  split; [exists (Spec.classify archs); apply getArchString_classify|].
  split; [apply getArchString_classify|].
  repeat split.
  intros Hcode. unfold getArchString.
  destruct (N.eqb_spec code Iana.EFI_X86_64) as [-> | H1]; [set_solver|].
  destruct (N.eqb_spec code Iana.EFI_ARM64) as [-> | H2]; [set_solver|].
  destruct (N.eqb_spec code Iana.INTEL_X86PC) as [-> | H3]; [set_solver|].
  reflexivity.
Qed.

End Substitution.

Lemma classifier_total_witness :
  (3 ∉ [Iana.EFI_X86_64; Iana.EFI_ARM64; Iana.INTEL_X86PC])
  ∧ Nbp.getArchString [3; Iana.EFI_ARM64] = "unknown".
Proof.
  assert (3 ∉ [Iana.EFI_X86_64; Iana.EFI_ARM64; Iana.INTEL_X86PC]) as Hcode.
  { rewrite !elem_of_cons, elem_of_nil. intros [E | [E | [E | []]]]; discriminate. }
  split; [exact Hcode|].
  apply (classifier_total [] 3 [Iana.EFI_ARM64]). exact Hcode.
Defined.

Section BootOptions.
Import GoStrings GoURL Nbp.

Lemma substitute_scheme_host (u : URL) (archStr : string) :
  Scheme (substitute u archStr) = Scheme u ∧ Host (substitute u archStr) = Host u.
Proof. rewrite substitute_frame. split; reflexivity. Qed.

(** C5.  After the substitution the resolver branches on the scheme of
    the working URL, which is the template's: for http, https and ftp the
    whole URL string is the boot-file value and there is no
    transfer-server value; for any other scheme the host is the
    transfer-server value and the path is the boot-file value.  The tftp
    template with the x86-legacy code gives ["10.0.0.1"] and
    ["/pxe/x86legacy"]; the http template with the ARM64-EFI code gives
    the single value ["http://boot.example/arm64.ipxe"]. *)
Theorem scheme_branching (u : URL) (archStr : string) :
  let modifiedURL := substitute u archStr in
  Scheme modifiedURL = Scheme u
  ∧ Host modifiedURL = Host u
  ∧ generateOptions modifiedURL =
      (if bool_decide (Scheme u ∈ ["http"; "https"; "ftp"])
       then (None, Some (Dhcpv4.OptBootFileName (URL_String modifiedURL)))
       else (Some (Dhcpv4.OptTFTPServerName (Host u)),
             Some (Dhcpv4.OptBootFileName (Path modifiedURL))))
  ∧ generateOptions (substitute Sample.tftpTemplate (getArchString [Iana.INTEL_X86PC]))
    = (Some (Dhcpv4.OptTFTPServerName "10.0.0.1"),
       Some (Dhcpv4.OptBootFileName "/pxe/x86legacy"))
  ∧ generateOptions (substitute Sample.httpTemplate (getArchString [Iana.EFI_ARM64]))
    = (None, Some (Dhcpv4.OptBootFileName "http://boot.example/arm64.ipxe")).
Proof.
  intros modifiedURL. subst modifiedURL.
  destruct (substitute_scheme_host u archStr) as [Hs Hh].
  split; [exact Hs|]. split; [exact Hh|].
  split; [|split; reflexivity].
  unfold generateOptions. rewrite Hs, Hh.
  destruct (String.eqb_spec (Scheme u) "http") as [-> | H1]; [reflexivity|].
  destruct (String.eqb_spec (Scheme u) "https") as [-> | H2]; [reflexivity|].
  destruct (String.eqb_spec (Scheme u) "ftp") as [-> | H3]; [reflexivity|].
  rewrite bool_decide_eq_false_2; [reflexivity|].
  rewrite !elem_of_cons, elem_of_nil. tauto.
Qed.

(** The reply after the two guarded updates of the closure. *)
Lemma handler4_reply (u : URL) (req : Dhcpv4.Request) (r : Dhcpv4.Reply) :
  let opts := generateOptions (substitute u (getArchString (Dhcpv4.ClientArch req))) in
  let attach (opt : option Dhcpv4.Option) code (o : gmap N string) :=
    match opt with
    | Some v => if Dhcpv4.IsOptionRequested req code then Dhcpv4.Update o v else o
    | None => o
    end in
  handler4 u req (Some r) =
    (Ret (Some {| Dhcpv4.ServerIPAddr := Dhcpv4.ServerIPAddr r;
                  Dhcpv4.Options :=
                    attach (snd opts) Dhcpv4.OptionBootfileName
                      (attach (fst opts) Dhcpv4.OptionTFTPServerName (Dhcpv4.Options r)) |},
          true), u).
Proof.
  intros opts attach. subst opts attach. unfold handler4.
  destruct (generateOptions _) as [tftpOpt bootOpt]. simpl.
  destruct r as [ip o]. simpl.
  destruct tftpOpt as [t|], bootOpt as [b|]; simpl;
    repeat (match goal with
            | |- context [Dhcpv4.IsOptionRequested req ?c] =>
                destruct (Dhcpv4.IsOptionRequested req c)
            end; simpl);
    reflexivity.
Qed.

Lemma generateOptions_codes (m : URL) :
  (∀ t, fst (generateOptions m) = Some t → Dhcpv4.Code t = Dhcpv4.OptionTFTPServerName)
  ∧ (∃ b, snd (generateOptions m) = Some b ∧ Dhcpv4.Code b = Dhcpv4.OptionBootfileName).
Proof.
  unfold generateOptions.
  destruct (_ || _); simpl; split; try (intros t [= <-]; reflexivity);
    try discriminate; eexists; split; reflexivity.
Qed.

End BootOptions.

Section Emission.
Import GoStrings GoURL Nbp.

(** The options one requested code makes [nbpHandler6] append. *)
Local Abbreviation appended o59 o60 :=
  (λ c : Dhcpv6.OptionCode,
     if c =? Dhcpv6.OptionBootfileURL then [o59]
     else if c =? Dhcpv6.OptionBootfileParam then option_list o60
     else []).

Lemma addRequested_some o59 o60 (r : Dhcpv6.Reply) code :
  addRequested o59 o60 (Some r) code =
    Ret (Some {| Dhcpv6.Options := Dhcpv6.Options r ++ appended o59 o60 code |}).
Proof.
  unfold addRequested. destruct r as [os]. simpl.
  destruct (code =? Dhcpv6.OptionBootfileURL); [reflexivity|].
  destruct (code =? Dhcpv6.OptionBootfileParam); [|rewrite app_nil_r; reflexivity].
  destruct o60; simpl; [reflexivity | rewrite app_nil_r; reflexivity].
Qed.

Lemma addAllRequested_some o59 o60 codes (r : Dhcpv6.Reply) :
  addAllRequested o59 o60 (Some r) codes =
    Ret (Some {| Dhcpv6.Options := Dhcpv6.Options r ++ (codes ≫= appended o59 o60) |}).
Proof.
  revert r. induction codes as [|code codes IH]; intros r.
  - destruct r as [os]. simpl. rewrite app_nil_r. reflexivity.
  - cbn [addAllRequested]. rewrite addRequested_some.
    change (Ret ?a ≫= ?k) with (k a). cbv beta.
    rewrite IH, bind_cons. simpl. rewrite app_assoc. reflexivity.
Qed.

(** C6, amended.  On the DHCPv4 path each of the two candidate options is
    written to the reply exactly when its value was computed and
    [req.IsOptionRequested] answers [true] for its code, one independently
    of the other; all other options and the fixed fields are left as they
    were, so a resolved boot-file value is not attached when
    [req.IsOptionRequested] answers [false] for its code.  When
    [req.IsOptionRequested] is the packet library's method over the
    parameter request list [rq], it answers [true] exactly for the codes
    the client listed and, on a request without a list, for every code: on
    such a request the boot-file option is attached although the client
    listed nothing.  On the DHCPv6 path, once set up, the boot-file URL
    option is appended exactly when its code is requested, and a boot-file
    parameter option exactly when its code is requested and a parameter
    value was configured; nothing else is appended. *)
Theorem emission_gating (u : URL) (req4 : Dhcpv4.Request) (r4 : Dhcpv4.Reply)
    (g : Globals) (req6 : Dhcpv6.Request) (r6 : Dhcpv6.Reply) :
  let opts := generateOptions (substitute u (getArchString (Dhcpv4.ClientArch req4))) in
  let wanted := Dhcpv4.IsOptionRequested req4 in
  let slot (opt : option Dhcpv4.Option) code :=
    match opt with
    | Some v => if wanted code then Some (Dhcpv4.Value v) else Dhcpv4.Options r4 !! code
    | None => Dhcpv4.Options r4 !! code
    end in
  (∃ r', fst (handler4 u req4 (Some r4)) = Ret (Some r', true)
     ∧ Dhcpv4.ServerIPAddr r' = Dhcpv4.ServerIPAddr r4
     ∧ Dhcpv4.Options r' !! Dhcpv4.OptionTFTPServerName
       = slot (fst opts) Dhcpv4.OptionTFTPServerName
     ∧ Dhcpv4.Options r' !! Dhcpv4.OptionBootfileName
       = slot (snd opts) Dhcpv4.OptionBootfileName
     ∧ (wanted Dhcpv4.OptionBootfileName = false →
        Dhcpv4.Options r' !! Dhcpv4.OptionBootfileName
        = Dhcpv4.Options r4 !! Dhcpv4.OptionBootfileName)
     ∧ (∀ code, code ≠ Dhcpv4.OptionTFTPServerName → code ≠ Dhcpv4.OptionBootfileName →
        Dhcpv4.Options r' !! code = Dhcpv4.Options r4 !! code)
     ∧ (∀ rq, (∀ code, wanted code = Dhcpv4.isOptionRequested rq code) →
          (∀ code, wanted code = true ↔ rq = None ∨ code ∈ Dhcpv4.listedCodes rq)
          ∧ (rq = None → ∀ b, snd opts = Some b →
             Dhcpv4.Options r' !! Dhcpv4.OptionBootfileName = Some (Dhcpv4.Value b))))
  ∧ (∀ o59 decap,
       wellFormed g → opt59 g = Some o59 → Dhcpv6.GetInnerMessage req6 = inl decap →
       ∃ added,
         nbpHandler6 g req6 (Some r6)
         = Ret (Some {| Dhcpv6.Options := Dhcpv6.Options r6 ++ added |}, true)
         ∧ (o59 ∈ added ↔ Dhcpv6.OptionBootfileURL ∈ Dhcpv6.RequestedOptions decap)
         ∧ (∀ o, Dhcpv6.Code o = Dhcpv6.OptionBootfileParam →
              (o ∈ added ↔ Dhcpv6.OptionBootfileParam ∈ Dhcpv6.RequestedOptions decap
                            ∧ opt60 g = Some o))
         ∧ (∀ o, o ∈ added → o = o59 ∨ opt60 g = Some o)).
Proof.
  intros opts wanted slot. split.
  - rewrite handler4_reply. fold opts. fold wanted. cbn [fst].
    eexists. split; [reflexivity|]. cbn [Dhcpv4.ServerIPAddr Dhcpv4.Options].
    destruct (generateOptions_codes
                (substitute u (getArchString (Dhcpv4.ClientArch req4))))
      as [Ht (b & Hb & Hcb)].
    fold opts in Ht, Hb. rewrite Hb. subst slot. cbn beta iota.
    assert (∀ code,
      (if wanted Dhcpv4.OptionBootfileName
       then Dhcpv4.Update
              match fst opts with
              | Some v =>
                  if wanted Dhcpv4.OptionTFTPServerName
                  then Dhcpv4.Update (Dhcpv4.Options r4) v else Dhcpv4.Options r4
              | None => Dhcpv4.Options r4
              end b
       else
         match fst opts with
         | Some v =>
             if wanted Dhcpv4.OptionTFTPServerName
             then Dhcpv4.Update (Dhcpv4.Options r4) v else Dhcpv4.Options r4
         | None => Dhcpv4.Options r4
         end) !! code
      = if decide (code = Dhcpv4.OptionBootfileName ∧ wanted Dhcpv4.OptionBootfileName = true)
        then Some (Dhcpv4.Value b)
        else match fst opts with
             | Some v =>
                 if decide (code = Dhcpv4.OptionTFTPServerName
                            ∧ wanted Dhcpv4.OptionTFTPServerName = true)
                 then Some (Dhcpv4.Value v) else Dhcpv4.Options r4 !! code
             | None => Dhcpv4.Options r4 !! code
             end) as Hlook.
    { intros code. unfold Dhcpv4.Update. rewrite Hcb.
      destruct (fst opts) as [t|] eqn:Hf.
      - rewrite (Ht t eq_refl).
        destruct (wanted Dhcpv4.OptionBootfileName),
                 (wanted Dhcpv4.OptionTFTPServerName);
          rewrite ?lookup_insert; decide_cases.
      - destruct (wanted Dhcpv4.OptionBootfileName);
          rewrite ?lookup_insert; decide_cases. }
    split; [reflexivity|]. split; [|split; [|split; [|split]]].
    + rewrite Hlook. rewrite decide_False by (intros [E _]; discriminate).
      destruct (fst opts); [|reflexivity].
      destruct (wanted Dhcpv4.OptionTFTPServerName); decide_cases.
    + rewrite Hlook. destruct (wanted Dhcpv4.OptionBootfileName).
      * rewrite decide_True by auto. reflexivity.
      * rewrite decide_False by (intros [_ E]; discriminate).
        destruct (fst opts); [|reflexivity].
        rewrite decide_False by (intros [E _]; discriminate). reflexivity.
    + intros Hw. rewrite Hlook.
      rewrite decide_False by (intros [_ E]; congruence).
      destruct (fst opts); [|reflexivity].
      rewrite decide_False by (intros [E _]; discriminate). reflexivity.
    + intros code H66 H67. rewrite Hlook.
      rewrite decide_False by tauto.
      destruct (fst opts); [|reflexivity].
      rewrite decide_False by tauto. reflexivity.
    + intros rq Hcodec. split.
      * intros code. rewrite Hcodec. destruct rq as [codes|]; simpl.
        -- rewrite existsb_exists. split.
           ++ intros (c & Hin & ->%N.eqb_eq). right. apply list_elem_of_In, Hin.
           ++ intros [[=] | Hin]. exists code.
              split; [apply list_elem_of_In, Hin | apply N.eqb_refl].
        -- split; auto.
      * intros -> b' Hb'. rewrite Hlook.
        rewrite decide_True by (split; [reflexivity | apply Hcodec]).
        congruence.
  - intros o59 decap [Hc59 Hc60] Ho59 Hdecap.
    exists (Dhcpv6.RequestedOptions decap ≫= appended o59 (opt60 g)).
    unfold nbpHandler6. rewrite Ho59, Hdecap, addAllRequested_some.
    split; [reflexivity|].
    assert (∀ o, o ∈ Dhcpv6.RequestedOptions decap ≫= appended o59 (opt60 g) ↔
                 (o = o59 ∧ Dhcpv6.OptionBootfileURL ∈ Dhcpv6.RequestedOptions decap)
                 ∨ (opt60 g = Some o
                    ∧ Dhcpv6.OptionBootfileParam ∈ Dhcpv6.RequestedOptions decap))
      as Hadded.
    { intros o. rewrite list_elem_of_bind. split.
      - intros (k & Ho & Hk). cbv beta in Ho.
        destruct (N.eqb_spec k Dhcpv6.OptionBootfileURL) as [E1 | _].
        { rewrite E1 in Hk. apply list_elem_of_singleton in Ho. auto. }
        destruct (N.eqb_spec k Dhcpv6.OptionBootfileParam) as [E2 | _].
        { rewrite E2 in Hk. destruct (opt60 g) as [o'|]; simpl in Ho.
          - apply list_elem_of_singleton in Ho as ->. auto.
          - inversion Ho. }
        inversion Ho.
      - intros [[-> Hin] | [Ho Hin]].
        + exists Dhcpv6.OptionBootfileURL. split; [|exact Hin]. simpl. left.
        + exists Dhcpv6.OptionBootfileParam. split; [|exact Hin].
          rewrite Ho. simpl. left. }
    specialize (Hc59 o59 Ho59).
    split; [|split].
    + split.
      * intros [[_ Hin] | [Ho Hin]]%Hadded; [exact Hin|].
        specialize (Hc60 o59 Ho). rewrite Hc59 in Hc60. discriminate.
      * intros Hin. apply Hadded. auto.
    + intros o Hcode. split.
      * intros [[-> Hin] | [Ho Hin]]%Hadded; [|auto].
        rewrite Hc59 in Hcode. discriminate.
      * intros [Hin Ho]. apply Hadded. auto.
    + intros o [[-> _] | [Ho _]]%Hadded; auto.
Qed.

End Emission.

Section Closure.
Import GoStrings GoURL Nbp.

(** Writing the same two options again changes nothing. *)
Lemma handler4_reply_idempotent (u : URL) (req : Dhcpv4.Request) (r r' : Dhcpv4.Reply) :
  fst (handler4 u req (Some r)) = Ret (Some r', true) →
  fst (handler4 u req (Some r')) = Ret (Some r', true).
Proof.
  rewrite !handler4_reply. cbn [fst]. intros [= <-].
  cbn [Dhcpv4.ServerIPAddr Dhcpv4.Options].
  destruct (generateOptions _) as [tftpOpt bootOpt]. cbn [fst snd].
  do 4 f_equal.
  apply map_eq. intros code. unfold Dhcpv4.Update.
  destruct tftpOpt as [t|], bootOpt as [b|];
    repeat (match goal with
            | |- context [Dhcpv4.IsOptionRequested req ?c] =>
                destruct (Dhcpv4.IsOptionRequested req c)
            end);
    rewrite ?lookup_insert; decide_cases.
Qed.

(** Reading a variable after an assignment: the assigned one holds the new
    value, the other one what it held. *)
Lemma read_write (x y : Place) (v : URL) (σ : Frame) :
  read y (write x v σ) = if decide (x = y) then v else read y σ.
Proof. destruct x, y; reflexivity. Qed.

Lemma read_assignPath (x y : Place) (p : string) (σ : Frame) :
  read y (assignPath x p σ) = if decide (x = y) then set_Path (read x σ) p else read y σ.
Proof. unfold assignPath. apply read_write. Qed.

Lemma frame_ext (σ τ : Frame) :
  read Template σ = read Template τ → read Working σ = read Working τ → σ = τ.
Proof. destruct σ, τ. simpl. intros -> ->. reflexivity. Qed.

(** No assignment of the resolution reaches the template cell. *)
Lemma resolveIn_template (archStr : string) (σ : Frame) :
  read Template (resolveIn archStr σ) = read Template σ.
Proof.
  unfold resolveIn. cbv zeta.
  repeat match goal with |- context [if String.eqb ?a ?b then _ else _] =>
    destruct (String.eqb a b) end;
    rewrite !read_assignPath, !read_write; reflexivity.
Qed.

(** The local variable ends as the substituted copy of the template,
    whatever it held before. *)
Lemma resolveIn_working (archStr : string) (σ : Frame) :
  read Working (resolveIn archStr σ) = substitute (read Template σ) archStr.
Proof.
  unfold resolveIn, substitute. cbv zeta.
  repeat match goal with |- context [if String.eqb ?a ?b then _ else _] =>
    destruct (String.eqb a b) end;
    rewrite !read_assignPath, !read_write; reflexivity.
Qed.

(** A resolution on the store left by an earlier one ends as on the
    original store. *)
Lemma resolveIn_resolveIn (a b : string) (σ : Frame) :
  resolveIn a (resolveIn b σ) = resolveIn a σ.
Proof.
  apply frame_ext.
  - rewrite !resolveIn_template. reflexivity.
  - rewrite !resolveIn_working, resolveIn_template. reflexivity.
Qed.

(** The closure on the store and the closure as a function of the
    template agree on the result. *)
Lemma closure4_handler4 (req : Dhcpv4.Request) (resp : option Dhcpv4.Reply) (σ : Frame) :
  closure4 req resp σ
  = (fst (handler4 (read Template σ) req resp),
     resolveIn (getArchString (Dhcpv4.ClientArch req)) σ).
Proof.
  unfold closure4, handler4. cbv zeta. rewrite resolveIn_working.
  destruct (generateOptions _). reflexivity.
Qed.

(** C9.  The closure of [setup4] runs on a store with two URL variables,
    the cell [*u] shared by all calls and the local [modifiedURL].
    Whatever the store holds when a call starts: after the call the cell
    [*u] holds the URL it held before, with its scheme, host, path and
    query; the local variable holds the resolved URL, which differs from
    the template in the path only; a later call, for any request and
    reply, run on the store the first call left, returns the result and
    leaves the store it would on the original store; the same call run
    a second time returns the same result and resolved URL as the first;
    and the same request applied to the reply of the first call leaves
    that reply as it is. *)
Theorem template_unchanged (σ : Frame) (req req' : Dhcpv4.Request)
    (resp resp' : option Dhcpv4.Reply) :
  let first := closure4 req resp σ in
  read Template (snd first) = read Template σ
  ∧ (Scheme (read Template (snd first)) = Scheme (read Template σ)
     ∧ Host (read Template (snd first)) = Host (read Template σ)
     ∧ Path (read Template (snd first)) = Path (read Template σ)
     ∧ RawQuery (read Template (snd first)) = RawQuery (read Template σ))
  ∧ read Working (snd first)
    = set_Path (read Template σ) (Path (read Working (snd first)))
  ∧ closure4 req' resp' (snd first) = closure4 req' resp' σ
  ∧ closure4 req resp (snd first) = first
  ∧ URL_String (read Working (snd (closure4 req resp (snd first))))
    = URL_String (read Working (snd first))
  ∧ (∀ r r', resp = Some r → fst first = Ret (Some r', true) →
       closure4 req (Some r') (snd first) = (Ret (Some r', true), snd first)).
Proof.
  intros first. subst first.
  assert (∀ rq rs, closure4 rq rs (snd (closure4 req resp σ)) = closure4 rq rs σ)
    as Hlater.
  { intros rq rs. rewrite !closure4_handler4. cbn [snd].
    rewrite resolveIn_template, resolveIn_resolveIn. reflexivity. }
  assert (read Template (snd (closure4 req resp σ)) = read Template σ) as Hcell.
  { rewrite closure4_handler4. cbn [snd]. apply resolveIn_template. }
  split; [exact Hcell|].
  split; [rewrite Hcell; repeat split|].
  split.
  { rewrite closure4_handler4. cbn [snd]. rewrite resolveIn_working.
    apply substitute_frame. }
  split; [apply Hlater|]. split; [apply Hlater|].
  split; [rewrite Hlater; reflexivity|].
  intros r r' -> Hfirst. rewrite Hlater.
  rewrite closure4_handler4 in Hfirst |- *. cbn [fst snd] in Hfirst |- *.
  f_equal.
  - exact (handler4_reply_idempotent _ _ _ _ Hfirst).
  - rewrite closure4_handler4. reflexivity.
Qed.

(** C10.  The closure returned by [setup4] returns the reply with
    [stop = true] for every request and reply; it never returns
    [stop = false].  When neither option code is requested the reply is
    returned as it was. *)
Theorem handler4_always_stops (u : URL) (req : Dhcpv4.Request)
    (r : Dhcpv4.Reply) (resp : option Dhcpv4.Reply) :
  (∃ r', fst (handler4 u req (Some r)) = Ret (Some r', true))
  ∧ (∀ out stop, fst (handler4 u req resp) = Ret (out, stop) → stop = true)
  ∧ (Dhcpv4.IsOptionRequested req Dhcpv4.OptionTFTPServerName = false →
     Dhcpv4.IsOptionRequested req Dhcpv4.OptionBootfileName = false →
     fst (handler4 u req resp) = Ret (resp, true)).
Proof.
  split; [|split].
  - rewrite handler4_reply. eexists. reflexivity.
  - intros out stop. unfold handler4.
    destruct (generateOptions _) as [tftpOpt bootOpt]. cbn [fst].
    destruct (updateIfRequested req tftpOpt _ resp) as [resp1|]; [|discriminate].
    cbn. destruct (updateIfRequested req bootOpt _ resp1) as [resp2|]; [|discriminate].
    cbn. intros [= _ <-]. reflexivity.
  - intros H66 H67. unfold handler4, updateIfRequested.
    destruct (generateOptions _) as [tftpOpt bootOpt]. cbn [fst].
    rewrite H66, H67. destruct tftpOpt, bootOpt; reflexivity.
Qed.

(** Every return of the handlers of package [nbp] carries [stop = true]. *)
Lemma nbp_handlers_stop (g : Globals) :
  (∀ req resp out stop, nbpHandler6 g req resp = Ret (out, stop) → stop = true)
  ∧ (∀ req resp out stop, nbpHandler4 g req resp = Ret (out, stop) → stop = true).
Proof.
  split; intros req resp out stop.
  - unfold nbpHandler6.
    destruct (opt59 g) as [o59|]; [|intros [= _ <-]; reflexivity].
    destruct (Dhcpv6.GetInnerMessage req) as [decap | err];
      [|intros [= _ <-]; reflexivity].
    destruct (addAllRequested _ _ _ _) as [resp'|]; [|discriminate].
    cbn. intros [= _ <-]. reflexivity.
  - unfold nbpHandler4.
    destruct (opt67 g) as [o67|]; [|intros [= _ <-]; reflexivity].
    match goal with |- context [?m ≫= _] => destruct m as [resp1|] end;
      [|discriminate].
    cbn.
    match goal with |- context [?m ≫= _] => destruct m as [resp2|] end;
      [|discriminate].
    cbn. intros [= _ <-]. reflexivity.
Qed.

(** C3, as the code has it.  When no boot-file URL option was prepared,
    [nbpHandler6] returns the reply as it received it, without adding an
    option and without dropping it, together with [stop = true]. *)
Theorem no_template_reply_unchanged (g : Globals) (req : Dhcpv6.Request)
    (resp : option Dhcpv6.Reply) :
  opt59 g = None →
  nbpHandler6 g req resp = Ret (resp, true).
Proof. intros Hnil. unfold nbpHandler6. rewrite Hnil. reflexivity. Qed.

End Closure.

Section SetupFacts.
Import GoURL Nbp.
Context `{NetURL}.

Lemma parseArgs_arity (args : list string) :
  length args ≠ 1%nat → ∃ err, parseArgs args = inr err.
Proof.
  destruct args as [|a [|b args]]; simpl; intros Hlen;
    [eexists; reflexivity | contradiction | eexists; reflexivity].
Qed.

(** A failing [setup6] leaves the package variables as they were. *)
Lemma setup6_failure (g : Globals) (args : list string) (err : error) :
  parseArgs args = inr err → setup6 g args = (g, Some err).
Proof. intros Herr. unfold setup6. rewrite Herr. reflexivity. Qed.

(** A successful [setup6] prepares the boot-file URL option. *)
Lemma setup6_success (g : Globals) (args : list string) (u : URL) :
  parseArgs args = inl u →
  snd (setup6 g args) = None
  ∧ opt59 (fst (setup6 g args)) = Some (Dhcpv6.OptBootFileURL (URL_String u)).
Proof.
  intros Hu. unfold setup6. rewrite Hu.
  destruct (negb _); split; reflexivity.
Qed.

Lemma initial_wellFormed : wellFormed initial.
Proof. split; intros o Ho; discriminate. Qed.

Lemma setup6_wellFormed (g : Globals) (args : list string) :
  wellFormed g → wellFormed (fst (setup6 g args)).
Proof.
  intros [H59 H60]. unfold setup6.
  destruct (parseArgs args) as [u | err]; [|split; assumption].
  destruct (negb _); split; cbn [fst opt59 opt60]; intros o Ho.
  - injection Ho as <-. reflexivity.
  - injection Ho as <-. reflexivity.
  - injection Ho as <-. reflexivity.
  - apply H60, Ho.
Qed.

(** [setup4] returns the closure over the parsed template. *)
Lemma setup4_closure (args : list string) (u : URL) :
  parseArgs args = inl u → setup4 args = inl (handler4 u).
Proof. intros Hu. unfold setup4. rewrite Hu. reflexivity. Qed.

End SetupFacts.

(** ** The scenarios of the specification, evaluated *)

Lemma sample_other_address_dropped :
  Whitelist.Handler4 (H := asciiTables)
    (Whitelist.setup4 (H := asciiTables) None Sample.allowArgs)
    (Sample.request4 Sample.macOther [] []) (Some Sample.reply4)
  = (None, true).
Proof. vm_compute. reflexivity. Qed.

Lemma sample_upper_case_entry_allows :
  Whitelist.Handler4 (H := asciiTables)
    (Whitelist.setup6 (H := asciiTables) None ["  00:11:22:33:44:55 "; "AA:BB:CC:DD:EE:FF"])
    (Sample.request4 [xaa; xbb; xcc; xdd; xee; xff] [] []) (Some Sample.reply4)
  = (Some Sample.reply4, false).
Proof. vm_compute. reflexivity. Qed.

Lemma sample_tftp_reply :
  ∃ r, fst (Nbp.handler4 Sample.tftpTemplate
              (Sample.request4 Sample.macListed [Iana.INTEL_X86PC] [66; 67])
              (Some Sample.reply4)) = Ret (Some r, true)
       ∧ Dhcpv4.Options r !! 66 = Some "10.0.0.1"
       ∧ Dhcpv4.Options r !! 67 = Some "/pxe/x86legacy".
Proof. eexists. split; [reflexivity|]. split; vm_compute; reflexivity. Qed.

Lemma sample_boot_file_not_requested :
  fst (Nbp.handler4 Sample.httpTemplate
         (Sample.request4 Sample.macListed [Iana.EFI_ARM64] [66])
         (Some Sample.reply4)) = Ret (Some Sample.reply4, true).
Proof. vm_compute. reflexivity. Qed.

Lemma sample_nil_reply_panics :
  fst (Nbp.handler4 Sample.httpTemplate
         (Sample.request4 Sample.macListed [Iana.EFI_ARM64] [67]) None) = Panic.
Proof. vm_compute. reflexivity. Qed.

(** ** Instances at sample inputs *)

Lemma emission_gating_witness :
  (∀ code,
     Dhcpv4.IsOptionRequested
       (Sample.request4From Sample.macListed [Iana.EFI_ARM64] None) code
     = Dhcpv4.isOptionRequested None code)
  ∧ snd (Nbp.generateOptions (Nbp.substitute Sample.httpTemplate "arm64"))
    = Some (Dhcpv4.OptBootFileName "http://boot.example/arm64.ipxe")
  ∧ Nbp.wellFormed Sample.nbpConfigured
  ∧ Nbp.opt59 Sample.nbpConfigured
    = Some (Dhcpv6.OptBootFileURL "http://[2001:db8:a::1]/nbp")
  ∧ Dhcpv6.GetInnerMessage (Sample.request6 (inl Sample.macListed) [59; 60])
    = inl {| Dhcpv6.RequestedOptions := [59; 60] |}
  ∧ (∃ r',
       fst (Nbp.handler4 Sample.httpTemplate
              (Sample.request4From Sample.macListed [Iana.EFI_ARM64] None)
              (Some Sample.reply4)) = Ret (Some r', true)
       ∧ Dhcpv4.Options r' !! Dhcpv4.OptionBootfileName
         = Some "http://boot.example/arm64.ipxe")
  ∧ ∃ added,
      Nbp.nbpHandler6 Sample.nbpConfigured
        (Sample.request6 (inl Sample.macListed) [59; 60]) (Some Sample.reply6)
      = Ret (Some {| Dhcpv6.Options := Dhcpv6.Options Sample.reply6 ++ added |}, true).
Proof.
  assert (Nbp.wellFormed Sample.nbpConfigured) as Hwf.
  { split; intros o [= <-]. reflexivity. }
  split; [reflexivity|]. split; [reflexivity|].
  split; [exact Hwf|]. split; [reflexivity|]. split; [reflexivity|].
  destruct (emission_gating Sample.httpTemplate
              (Sample.request4From Sample.macListed [Iana.EFI_ARM64] None)
              Sample.reply4 Sample.nbpConfigured
              (Sample.request6 (inl Sample.macListed) [59; 60]) Sample.reply6)
    as [(r' & Hr' & _ & _ & _ & _ & _ & Hcodec) H6].
  split.
  - exists r'. split; [exact Hr'|].
    exact (proj2 (Hcodec None (λ _, eq_refl)) eq_refl _ eq_refl).
  - destruct (H6 _ _ Hwf eq_refl eq_refl) as (added & Heq & _).
    exists added. exact Heq.
Defined.

(** C6, as the specification words it, fails on the DHCPv4 path: a request
    without a parameter request list lists no option code, the reply has
    no boot-file option before the call, and the closure attaches one. *)
Lemma emission_gating_counterexample :
  (Dhcpv4.OptionBootfileName ∉ Dhcpv4.listedCodes None)
  ∧ Dhcpv4.Options Sample.reply4 !! Dhcpv4.OptionBootfileName = None
  ∧ fst (Nbp.handler4 Sample.httpTemplate
           (Sample.request4From Sample.macListed [Iana.EFI_ARM64] None)
           (Some Sample.reply4))
    = Ret (Some {| Dhcpv4.ServerIPAddr := Dhcpv4.ServerIPAddr Sample.reply4;
                   Dhcpv4.Options :=
                     <[67 := "http://boot.example/arm64.ipxe"]> ∅ |}, true)
  ∧ (<[67 := "http://boot.example/arm64.ipxe"]> ∅ : gmap N string)
      !! Dhcpv4.OptionBootfileName
    = Some "http://boot.example/arm64.ipxe".
Proof.
  split; [apply not_elem_of_nil|]. split; [reflexivity|].
  split; [reflexivity|]. reflexivity.
Qed.

Lemma template_unchanged_witness :
  fst (Nbp.closure4
         (Sample.request4 Sample.macListed [Iana.INTEL_X86PC] [66; 67])
         (Some Sample.reply4)
         {| Nbp.cellTemplate := Sample.tftpTemplate;
            Nbp.cellWorking := Sample.httpTemplate |})
  = Ret (Some {| Dhcpv4.ServerIPAddr := Dhcpv4.ServerIPAddr Sample.reply4;
                 Dhcpv4.Options := <[67 := "/pxe/x86legacy"]> (<[66 := "10.0.0.1"]> ∅) |},
         true)
  ∧ Nbp.closure4
      (Sample.request4 Sample.macListed [Iana.INTEL_X86PC] [66; 67])
      (Some {| Dhcpv4.ServerIPAddr := Dhcpv4.ServerIPAddr Sample.reply4;
               Dhcpv4.Options := <[67 := "/pxe/x86legacy"]> (<[66 := "10.0.0.1"]> ∅) |})
      (snd (Nbp.closure4
              (Sample.request4 Sample.macListed [Iana.INTEL_X86PC] [66; 67])
              (Some Sample.reply4)
              {| Nbp.cellTemplate := Sample.tftpTemplate;
                 Nbp.cellWorking := Sample.httpTemplate |}))
    = (Ret (Some {| Dhcpv4.ServerIPAddr := Dhcpv4.ServerIPAddr Sample.reply4;
                    Dhcpv4.Options :=
                      <[67 := "/pxe/x86legacy"]> (<[66 := "10.0.0.1"]> ∅) |},
            true),
       snd (Nbp.closure4
              (Sample.request4 Sample.macListed [Iana.INTEL_X86PC] [66; 67])
              (Some Sample.reply4)
              {| Nbp.cellTemplate := Sample.tftpTemplate;
                 Nbp.cellWorking := Sample.httpTemplate |})).
Proof.
  assert (fst (Nbp.closure4
                 (Sample.request4 Sample.macListed [Iana.INTEL_X86PC] [66; 67])
                 (Some Sample.reply4)
                 {| Nbp.cellTemplate := Sample.tftpTemplate;
                    Nbp.cellWorking := Sample.httpTemplate |})
          = Ret (Some {| Dhcpv4.ServerIPAddr := Dhcpv4.ServerIPAddr Sample.reply4;
                         Dhcpv4.Options :=
                           <[67 := "/pxe/x86legacy"]> (<[66 := "10.0.0.1"]> ∅) |},
                 true)) as Hfirst by reflexivity.
  split; [exact Hfirst|].
  destruct (template_unchanged
              {| Nbp.cellTemplate := Sample.tftpTemplate;
                 Nbp.cellWorking := Sample.httpTemplate |}
              (Sample.request4 Sample.macListed [Iana.INTEL_X86PC] [66; 67])
              (Sample.request4 Sample.macListed [Iana.EFI_ARM64] [67])
              (Some Sample.reply4) None)
    as (_ & _ & _ & _ & _ & _ & Hagain).
  exact (Hagain _ _ eq_refl Hfirst).
Defined.

Lemma handler4_always_stops_witness :
  Dhcpv4.IsOptionRequested (Sample.request4 Sample.macListed [] []) 66 = false
  ∧ Dhcpv4.IsOptionRequested (Sample.request4 Sample.macListed [] []) 67 = false
  ∧ fst (Nbp.handler4 Sample.httpTemplate (Sample.request4 Sample.macListed [] [])
           (Some Sample.reply4))
    = Ret (Some Sample.reply4, true).
Proof.
  split; [reflexivity|]. split; [reflexivity|].
  apply (handler4_always_stops Sample.httpTemplate
           (Sample.request4 Sample.macListed [] []) Sample.reply4 (Some Sample.reply4));
    reflexivity.
Defined.

Lemma no_template_reply_unchanged_witness :
  Nbp.opt59 Nbp.initial = None
  ∧ Nbp.nbpHandler6 Nbp.initial (Sample.request6 (inl Sample.macListed) [59; 60])
      (Some Sample.reply6)
    = Ret (Some Sample.reply6, true).
Proof.
  split; [reflexivity|].
  apply (no_template_reply_unchanged Nbp.initial
           (Sample.request6 (inl Sample.macListed) [59; 60]) (Some Sample.reply6)).
  reflexivity.
Defined.

(** C3, as the specification words it, fails: with no boot-file URL option
    prepared, a request asking for both boot options gets its reply back
    with [stop = true], not with the continue signal [stop = false]. *)
Lemma no_template_continue_counterexample :
  Nbp.opt59 Nbp.initial = None
  ∧ Nbp.nbpHandler6 Nbp.initial (Sample.request6 (inl Sample.macListed) [59; 60])
      (Some Sample.reply6)
    = Ret (Some Sample.reply6, true)
  ∧ Nbp.nbpHandler6 Nbp.initial (Sample.request6 (inl Sample.macListed) [59; 60])
      (Some Sample.reply6)
    ≠ Ret (Some Sample.reply6, false).
Proof. split; [reflexivity|]. split; [reflexivity|]. discriminate. Qed.

(** * Further properties of the plugins *)

(** ** Package [whitelist]: the configured set *)

Section AllowSetFacts.
Import GoStrings GoNet Whitelist.
Context `{UnicodeTables}.

Lemma allowSet_app (args1 args2 : list string) :
  Spec.allowSet (args1 ++ args2) = Spec.allowSet args1 ∪ Spec.allowSet args2.
Proof.
  unfold Spec.allowSet. rewrite fmap_app, filter_app, list_to_set_app_L. reflexivity.
Qed.

Lemma dom_parseMACs (args : list string) :
  dom (parseMACs args) = Spec.allowSet args.
Proof.
  apply set_eq. intros s. rewrite elem_of_dom, parseMACs_lookup.
  destruct (decide (s ∈ Spec.allowSet args)) as [Hin | Hnin].
  - split; [auto | eauto].
  - split; [intros [b Hb]; discriminate | contradiction].
Qed.

Lemma parseMACs_eq_iff (args1 args2 : list string) :
  parseMACs args1 = parseMACs args2 ↔ Spec.allowSet args1 = Spec.allowSet args2.
Proof.
  split.
  - intros Heq. rewrite <- !dom_parseMACs, Heq. reflexivity.
  - intros Heq. apply map_eq. intros s. rewrite !parseMACs_lookup, Heq. reflexivity.
Qed.

Lemma size_allowSet_le (args : list string) :
  (size (Spec.allowSet args) ≤ length args)%nat.
Proof.
  induction args as [|a args IH]; [reflexivity|].
  change (a :: args) with ([a] ++ args). rewrite allowSet_app, size_union_alt.
  assert (size (Spec.allowSet [a]) ≤ 1)%nat as Ha.
  { rewrite <- (size_singleton (C := gset string) (ToLower (TrimSpace a))).
    apply subseteq_size. intros s (_ & b & Hb & <-)%elem_of_allowSet.
    apply list_elem_of_singleton in Hb as ->. apply elem_of_singleton. reflexivity. }
  assert (size (Spec.allowSet args ∖ Spec.allowSet [a]) ≤ size (Spec.allowSet args))%nat
    as Hd.
  { apply subseteq_size, subseteq_difference_l. reflexivity. }
  simpl. lia.
Qed.

(** X1.  The map that a setup builds depends on the configured entries only
    through the set of their trimmed, lower-cased, non-empty forms: two
    configurations build the same map exactly when these sets agree.  So
    neither the order of the entries nor repeated entries matter. *)
Theorem setup_depends_on_allow_set (g1 g2 : Globals) (args1 args2 : list string) :
  (setup6 g1 args1 = setup6 g2 args2 ↔ Spec.allowSet args1 = Spec.allowSet args2)
  ∧ setup6 g1 (args1 ++ args2) = setup6 g2 (args2 ++ args1)
  ∧ setup6 g1 (args1 ++ args1) = setup6 g2 args1.
Proof.
  unfold setup6. split; [|split].
  - rewrite <- parseMACs_eq_iff. split; [intros [= E]; exact E | intros ->; reflexivity].
  - f_equal. apply parseMACs_eq_iff. rewrite !allowSet_app. apply union_comm_L.
  - f_equal. apply parseMACs_eq_iff. rewrite !allowSet_app. apply union_idemp_L.
Qed.

(** X2.  After a setup, [len(whitelistedMACs)] is the number of distinct
    non-empty normalised entries; it never exceeds the number of
    arguments, and every stored value is [true] under a non-empty key that
    is the normalised form of some argument. *)
Theorem configured_map_shape (g : Globals) (args : list string) (s : string) (b : bool) :
  mapLen (setup6 g args) = size (Spec.allowSet args)
  ∧ (mapLen (setup6 g args) ≤ length args)%nat
  ∧ (parseMACs args !! s = Some b →
     b = true ∧ s ≠ "" ∧ ∃ a, a ∈ args ∧ ToLower (TrimSpace a) = s)
  ∧ mapIndex (setup6 g args) s = bool_decide (s ∈ dom (parseMACs args)).
Proof.
  assert (mapLen (setup6 g args) = size (Spec.allowSet args)) as Hlen.
  { unfold setup6, mapLen. rewrite <- dom_parseMACs, size_dom. reflexivity. }
  split; [exact Hlen|]. split; [rewrite Hlen; apply size_allowSet_le|]. split.
  - rewrite parseMACs_lookup. destruct (decide _) as [Hin | Hnin]; [|discriminate].
    intros [= <-]. apply elem_of_allowSet in Hin. tauto.
  - unfold setup6. rewrite mapIndex_parseMACs, dom_parseMACs. reflexivity.
Qed.

(** X3.  How the two setups compose on the shared variable: [setup6] always
    replaces the set, [setup4] only fills an unset variable.  After
    [setup6] the arguments of a later [setup4] are ignored, so [Handler4]
    decides by the DHCPv6 list. *)
Theorem setup_composition (g : Globals) (args4 args6 : list string)
    (req : Dhcpv4.Request) (resp : option Dhcpv4.Reply) :
  setup4 (setup6 g args6) args4 = setup6 g args6
  ∧ setup6 (setup4 g args4) args6 = setup6 g args6
  ∧ setup4 (setup4 g args4) args6 = setup4 g args4
  ∧ Handler4 (setup4 (setup6 g args6) args4) req resp
    = Handler4 (setup6 None args6) req resp.
Proof.
  repeat split. destruct g; reflexivity.
Qed.

Lemma asciiSpace_is_ascii (c : ascii) : asciiSpace c = true → isASCIIByte c = true.
Proof. destruct c as [[] [] [] [] [] [] [] []]; (reflexivity || discriminate). Qed.

Lemma trimStart_blank (a : string) :
  allBytes asciiSpace a = true → trimStart a = (false, "").
Proof.
  induction a as [|c a IH]; [reflexivity|].
  simpl. intros [Hc Ha]%andb_true_iff.
  rewrite (asciiSpace_is_ascii c Hc), Hc. simpl. apply IH, Ha.
Qed.

Lemma normalise_blank (a : string) :
  allBytes asciiSpace a = true → ToLower (TrimSpace a) = "".
Proof.
  intros Ha. unfold TrimSpace. rewrite (trimStart_blank a Ha). reflexivity.
Qed.

(** X4.  An entry made of ASCII white space only (or empty) is skipped:
    it may be added to or removed from the configuration at any place
    without changing the set. *)
Theorem blank_entry_skipped (g : Globals) (before after : list string) (a : string) :
  allBytes asciiSpace a = true →
  setup6 g (before ++ a :: after) = setup6 g (before ++ after).
Proof.
  intros Ha. unfold setup6, parseMACs. f_equal.
  rewrite !foldl_app. simpl. f_equal.
  unfold addArg. rewrite (normalise_blank a Ha). reflexivity.
Qed.

End AllowSetFacts.

(** ** Package [whitelist]: addresses and their text form *)

Section AddressFacts.
Import GoStrings GoNet Whitelist.
Context `{UnicodeTables}.

(** The two hex digits of a byte determine it. *)
Lemma hex_digits_decode (b : byte) :
  Byte.of_N (16 * GoURL.unhex (hexDigitAt (N.shiftr (Byte.to_N b) 4))
             + GoURL.unhex (hexDigitAt (N.land (Byte.to_N b) 0xF))) = Some b.
Proof. destruct b; reflexivity. Qed.

Lemma hex_digits_inj (b b' : byte) :
  hexDigitAt (N.shiftr (Byte.to_N b) 4) = hexDigitAt (N.shiftr (Byte.to_N b') 4) →
  hexDigitAt (N.land (Byte.to_N b) 0xF) = hexDigitAt (N.land (Byte.to_N b') 0xF) →
  b = b'.
Proof.
  intros Hhi Hlo. pose proof (hex_digits_decode b) as Hb.
  rewrite Hhi, Hlo, hex_digits_decode in Hb. congruence.
Qed.

Lemma appendHex_inj (a a' : list byte) (i : nat) :
  appendHex i a = appendHex i a' → a = a'.
Proof.
  revert a' i. induction a as [|b a IH]; intros [|b' a'] i Heq.
  - reflexivity.
  - destruct i; discriminate.
  - destruct i; discriminate.
  - assert (hexDigitAt (N.shiftr (Byte.to_N b) 4) = hexDigitAt (N.shiftr (Byte.to_N b') 4)
            ∧ hexDigitAt (N.land (Byte.to_N b) 0xF) = hexDigitAt (N.land (Byte.to_N b') 0xF)
            ∧ appendHex (S i) a = appendHex (S i) a') as (Hhi & Hlo & Htl).
    { destruct i; cbn [appendHex] in Heq; injection Heq; auto. }
    rewrite (hex_digits_inj b b' Hhi Hlo), (IH a' (S i) Htl). reflexivity.
Qed.

(** Distinct addresses have distinct text forms. *)
Lemma HardwareAddr_String_inj (a a' : HardwareAddr) :
  HardwareAddr_String a = HardwareAddr_String a' → a = a'.
Proof.
  destruct a as [|b a], a' as [|b' a']; unfold HardwareAddr_String; intros Heq.
  - reflexivity.
  - discriminate.
  - discriminate.
  - apply (appendHex_inj _ _ O Heq).
Qed.

Lemma HardwareAddr_String_empty_iff (a : HardwareAddr) :
  HardwareAddr_String a = "" ↔ a = [].
Proof.
  split; [|intros ->; reflexivity].
  intros Heq. apply HardwareAddr_String_inj. exact Heq.
Qed.

Lemma hexDigit_plain (b : byte) :
  let hi := hexDigitAt (N.shiftr (Byte.to_N b) 4) in
  let lo := hexDigitAt (N.land (Byte.to_N b) 0xF) in
  negb (asciiSpace hi) && negb (asciiSpace lo) = true.
Proof. destruct b; reflexivity. Qed.

Lemma appendHex_no_space (a : list byte) (i : nat) :
  allBytes (λ c, isASCIIByte c && negb (asciiSpace c)) (appendHex i a) = true.
Proof.
  revert i. induction a as [|b a IH]; intros i; [reflexivity|].
  pose proof (hexDigit_lower b) as Hl. pose proof (hexDigit_plain b) as Hp.
  cbv zeta in Hl, Hp.
  apply andb_true_iff in Hl as [Hl _]. apply andb_true_iff in Hl as [Hl _].
  apply andb_true_iff in Hl as [Hah Hal]. apply andb_true_iff in Hp as [Hph Hpl].
  destruct i; cbn [appendHex allBytes]; rewrite Hah, Hal, Hph, Hpl, (IH (S _)); reflexivity.
Qed.

Lemma trimStop_no_space (s : string) :
  allBytes (λ c, isASCIIByte c && negb (asciiSpace c)) s = true →
  trimStop s = (false, s).
Proof.
  induction s as [|c s IH]; [reflexivity|].
  cbn [allBytes]. intros [Hc Hs]%andb_true_iff.
  apply andb_true_iff in Hc as [Ha Hn]. apply negb_true_iff in Hn.
  cbn [trimStop]. rewrite (IH Hs). destruct s; [|reflexivity].
  rewrite Ha, Hn. reflexivity.
Qed.

Lemma asciiTrim_no_space (s : string) :
  allBytes (λ c, isASCIIByte c && negb (asciiSpace c)) s = true →
  asciiTrim s = s.
Proof.
  intros Hs. unfold asciiTrim.
  assert (trimStart s = (false, s)) as ->.
  { destruct s as [|c s]; [reflexivity|].
    cbn [allBytes] in Hs. apply andb_true_iff in Hs as [Hc _].
    apply andb_true_iff in Hc as [Ha Hn]. apply negb_true_iff in Hn.
    cbn [trimStart]. rewrite Ha, Hn. reflexivity. }
  cbn [snd]. rewrite (trimStop_no_space s Hs). reflexivity.
Qed.

(** A text form configured as it is printed is its own key. *)
Lemma normalise_text_form (mac : HardwareAddr) :
  ToLower (TrimSpace (HardwareAddr_String mac)) = HardwareAddr_String mac.
Proof.
  assert (isASCII (HardwareAddr_String mac) = true) as Hascii.
  { destruct mac as [|b mac]; [reflexivity|]. apply appendHex_lower. }
  destruct (TrimSpace_ascii _ Hascii) as [-> _].
  rewrite asciiTrim_no_space; [apply HardwareAddr_String_lower|].
  destruct mac as [|b mac]; [reflexivity|]. apply appendHex_no_space.
Qed.

(** X5.  Matching tolerates surrounding white space and upper-case hex
    digits in the configuration: if some ASCII entry, trimmed and
    lower-cased, is the text form of the request's (non-empty) hardware
    address, both handlers let the request pass. *)
Theorem listed_address_passes (g : Globals) (args : list string) (a : string)
    (mac : HardwareAddr) (req4 : Dhcpv4.Request) (resp4 : option Dhcpv4.Reply)
    (req6 : Dhcpv6.Request) (resp6 : option Dhcpv6.Reply) :
  a ∈ args →
  isASCII a = true →
  mapBytes lowerByte (asciiTrim a) = HardwareAddr_String mac →
  mac ≠ [] →
  Dhcpv4.ClientHWAddr req4 = mac →
  Dhcpv6.ExtractMAC req6 = inl mac →
  Handler4 (setup6 g args) req4 resp4 = (resp4, false)
  ∧ Handler6 (setup6 g args) req6 resp6 = (resp6, false).
Proof.
  intros Ha Hascii Hnorm Hmac H4 H6.
  assert (HardwareAddr_String mac ∈ Spec.allowSet args) as Hin.
  { apply elem_of_allowSet. split.
    - rewrite HardwareAddr_String_empty_iff. exact Hmac.
    - exists a. split; [exact Ha|].
      destruct (TrimSpace_ascii a Hascii) as [-> Ht].
      rewrite ToLower_ascii by exact Ht. exact Hnorm. }
  assert (Spec.allowSet args ≠ ∅) as HL.
  { intros E. rewrite E in Hin. apply not_elem_of_empty in Hin. exact Hin. }
  unfold setup6.
  rewrite (Handler4_configured args req4 resp4 HL), (Handler6_configured args req6 resp6 HL).
  rewrite H4, H6, HardwareAddr_String_lower.
  rewrite !decide_True by exact Hin. split; reflexivity.
Qed.

(** X6.  No two addresses are confused: when the configuration lists the
    text forms of the non-empty addresses [macs], [Handler4] lets a
    request pass exactly when its hardware address is one of [macs], and
    [Handler6] exactly when the extracted address is. *)
Theorem exactly_listed_addresses_pass (g : Globals) (macs : list HardwareAddr)
    (req4 : Dhcpv4.Request) (resp4 : option Dhcpv4.Reply)
    (req6 : Dhcpv6.Request) (resp6 : option Dhcpv6.Reply) :
  macs ≠ [] →
  [] ∉ macs →
  let wl := setup6 g (HardwareAddr_String <$> macs) in
  (Handler4 wl req4 resp4 = (resp4, false) ↔ Dhcpv4.ClientHWAddr req4 ∈ macs)
  ∧ (Handler6 wl req6 resp6 = (resp6, false) ↔
     ∃ mac, Dhcpv6.ExtractMAC req6 = inl mac ∧ mac ∈ macs).
Proof.
  intros Hne Hnil wl. subst wl.
  assert (∀ mac, HardwareAddr_String mac ∈ Spec.allowSet (HardwareAddr_String <$> macs)
                 ↔ mac ∈ macs) as Hset.
  { intros mac. rewrite elem_of_allowSet. split.
    - intros (_ & a & (m & -> & Hm)%list_elem_of_fmap & Heq).
      rewrite normalise_text_form in Heq.
      apply HardwareAddr_String_inj in Heq as <-. exact Hm.
    - intros Hm. split.
      + rewrite HardwareAddr_String_empty_iff. intros ->. contradiction.
      + exists (HardwareAddr_String mac). split; [|apply normalise_text_form].
        apply list_elem_of_fmap. eauto. }
  assert (Spec.allowSet (HardwareAddr_String <$> macs) ≠ ∅) as HL.
  { destruct macs as [|m macs]; [contradiction|].
    intros E. assert (m ∈ m :: macs) as Hm by left.
    apply Hset in Hm. rewrite E in Hm. apply not_elem_of_empty in Hm. exact Hm. }
  unfold setup6.
  rewrite (Handler4_configured _ req4 resp4 HL), (Handler6_configured _ req6 resp6 HL).
  split.
  - rewrite HardwareAddr_String_lower.
    destruct (decide _) as [Hin | Hnin]; rewrite Hset in *.
    + split; auto.
    + split; [discriminate | contradiction].
  - destruct (Dhcpv6.ExtractMAC req6) as [mac | err].
    + rewrite HardwareAddr_String_lower.
      destruct (decide _) as [Hin | Hnin]; rewrite Hset in *.
      * split; eauto.
      * split; [discriminate|]. intros (m & [= <-] & Hm). contradiction.
    + split; [discriminate|]. intros (m & Hm & _). discriminate.
Qed.

(** X7.  The two protocol entry points agree: for a request whose extracted
    DHCPv6 address is the DHCPv4 client hardware address, and any value of
    the shared map, either both handlers pass the reply on or both drop
    it. *)
Theorem handlers_agree (wl : Globals)
    (req4 : Dhcpv4.Request) (resp4 : option Dhcpv4.Reply)
    (req6 : Dhcpv6.Request) (resp6 : option Dhcpv6.Reply) :
  Dhcpv6.ExtractMAC req6 = inl (Dhcpv4.ClientHWAddr req4) →
  (Handler4 wl req4 resp4 = (resp4, false) ∧ Handler6 wl req6 resp6 = (resp6, false))
  ∨ (Handler4 wl req4 resp4 = (None, true) ∧ Handler6 wl req6 resp6 = (None, true)).
Proof.
  intros Hmac. unfold Handler4, Handler6. rewrite Hmac.
  destruct (isNil wl || Nat.eqb (mapLen wl) 0); [left; split; reflexivity|].
  destruct (mapIndex wl _); [left | right]; split; reflexivity.
Qed.

End AddressFacts.

(** ** Package [nbp]: what the substitution leaves behind *)

Section PlaceholderFacts.
Import GoStrings GoURL Nbp.

Lemma set_Path_same (u : URL) : set_Path u (Path u) = u.
Proof. destruct u. reflexivity. Qed.

(** Without an occurrence of [old], [ReplaceAll] returns its input. *)
Lemma ReplaceAll_absent (s old new : string) :
  old ≠ "" → Contains s old = false → ReplaceAll s old new = s.
Proof.
  intros Hold. induction s as [|c s IH]; intros Hc.
  - apply ReplaceAll_empty, Hold.
  - cbn [Contains] in Hc. apply orb_false_iff in Hc as [Hp Hs].
    rewrite ReplaceAll_keep, (IH Hs) by assumption. reflexivity.
Qed.

(** [Contains] holds exactly for the texts with an occurrence of [x]. *)
Lemma Contains_occurrence (s x : string) :
  Contains s x = true ↔ ∃ l r, s = l +:+ x +:+ r.
Proof.
  induction s as [|c s IH].
  - cbn [Contains]. split.
    + intros Hp. destruct x; [exists "", ""; reflexivity | discriminate].
    + intros (l & r & Heq). destruct l; [|discriminate].
      destruct x; [reflexivity | discriminate].
  - cbn [Contains]. rewrite orb_true_iff, IH. split.
    + intros [Hp | (l & r & ->)].
      * apply prefix_split in Hp as [r Hr]. exists "", r. exact Hr.
      * exists (String c l), r. reflexivity.
    + intros (l & r & Heq). destruct l as [|d l].
      * left. change ("" +:+ x +:+ r) with (x +:+ r) in Heq.
        rewrite Heq. apply prefix_app.
      * right. injection Heq as _ Heq. eauto.
Qed.

Lemma Contains_after_plain (a q : string) (x : string) :
  allBytes (λ c, negb (Ascii.eqb c "{")) a = true →
  Contains (a +:+ q) (String "{" x) = Contains q (String "{" x).
Proof.
  induction a as [|c a IH]; [reflexivity|].
  cbn [allBytes]. intros [Hc Ha]%andb_true_iff. apply negb_true_iff in Hc.
  change (String c a +:+ q) with (String c (a +:+ q)). cbn [Contains].
  rewrite prefix_cons, Ascii.eqb_sym, Hc, (IH Ha). reflexivity.
Qed.

(** If neither replacement text can be read as the start of [x] or of one
    of its suffixes, [x] is at the front of the result only where it was at
    the front of the path. *)
Lemma Substituted_prefix_inv (a e x : string) :
  (∀ x1 x2 s, x = x1 +:+ x2 → x2 ≠ "" →
     String.prefix x2 (a +:+ s) = false ∧ String.prefix x2 (e +:+ s) = false) →
  ∀ p q, Spec.Substituted a e p q → String.prefix x q = true → String.prefix x p = true.
Proof.
  induction x as [|d x IH]; intros Hclash p q Hsub Hq.
  - destruct p; reflexivity.
  - assert (∀ s, String.prefix (String d x) (a +:+ s) = false
                 ∧ String.prefix (String d x) (e +:+ s) = false) as Hhere.
    { intros s. apply (Hclash "" (String d x) s); [reflexivity | discriminate]. }
    destruct Hsub as [|p q Hsub|p q Hsub|c p q Harch Hefi Hsub].
    + discriminate.
    + rewrite (proj1 (Hhere q)) in Hq. discriminate.
    + rewrite (proj2 (Hhere q)) in Hq. discriminate.
    + rewrite prefix_cons in Hq |- *.
      destruct (Ascii.eqb d c); [|discriminate].
      apply (IH ltac:(intros x1 x2 s Hx Hne;
                      apply (Hclash (String d x1) x2 s); [rewrite Hx; reflexivity | exact Hne])
               p q Hsub Hq).
Qed.

(** Discharge the side condition of [Substituted_prefix_inv] for concrete
    texts: every suffix is met by peeling the bytes of [x] one by one. *)
Ltac peel_suffixes :=
  intros x1 x2 s Hx Hne;
  repeat (destruct x1 as [|? x1]; cbv [String.append] in Hx;
          [ subst x2; first [split; reflexivity | contradiction]
          | first [discriminate Hx | injection Hx as <- Hx] ]).

Lemma Substituted_clean (a e p q : string) :
  allBytes (λ c, negb (Ascii.eqb c "{")) a = true →
  allBytes (λ c, negb (Ascii.eqb c "{")) e = true →
  (∀ x1 x2 s, "arch}" = x1 +:+ x2 → x2 ≠ "" →
     String.prefix x2 (a +:+ s) = false ∧ String.prefix x2 (e +:+ s) = false) →
  (∀ x1 x2 s, "efi}" = x1 +:+ x2 → x2 ≠ "" →
     String.prefix x2 (a +:+ s) = false ∧ String.prefix x2 (e +:+ s) = false) →
  Spec.Substituted a e p q →
  Contains q "{arch}" = false ∧ Contains q "{efi}" = false.
Proof.
  intros Ha He Harch Hefi Hsub.
  induction Hsub as [|p q Hsub IH|p q Hsub IH|c p q Hpa Hpe Hsub IH].
  - split; reflexivity.
  - rewrite !Contains_after_plain by exact Ha. exact IH.
  - rewrite !Contains_after_plain by exact He. exact IH.
  - destruct IH as [IHa IHe]. cbn [Contains]. rewrite IHa, IHe, !orb_false_r.
    rewrite prefix_cons in Hpa, Hpe |- *. rewrite prefix_cons.
    destruct (Ascii.eqb "{" c); [|split; reflexivity]. split.
    + destruct (String.prefix "arch}" q) eqn:Hq; [|reflexivity].
      rewrite (Substituted_prefix_inv a e "arch}" Harch p q Hsub Hq) in Hpa. discriminate.
    + destruct (String.prefix "efi}" q) eqn:Hq; [|reflexivity].
      rewrite (Substituted_prefix_inv a e "efi}" Hefi p q Hsub Hq) in Hpe. discriminate.
Qed.

Lemma substitute_without_placeholders (u : URL) (archStr : string) :
  Contains (Path u) "{arch}" = false →
  Contains (Path u) "{efi}" = false →
  substitute u archStr = u.
Proof.
  intros Ha He. unfold substitute.
  rewrite (ReplaceAll_absent (Path u) "{arch}" archStr) by (discriminate || assumption).
  rewrite set_Path_same.
  repeat match goal with |- context [if ?b then _ else _] => destruct b end;
    rewrite ReplaceAll_absent by (discriminate || assumption); apply set_Path_same.
Qed.

(** X8.  For each of the five short forms the resolved path holds no
    occurrence of ["{arch}"] and none of ["{efi}"]: the replacement texts
    cannot join with their surroundings into a new placeholder.  Hence the
    substitution applied to its own result changes nothing. *)
Theorem no_placeholder_remains (u : URL) (tag : Spec.ArchitectureTag) :
  let short := Spec.shortForm tag in
  Contains (Path (substitute u short)) "{arch}" = false
  ∧ Contains (Path (substitute u short)) "{efi}" = false
  ∧ substitute (substitute u short) short = substitute u short.
Proof.
  intros short. subst short.
  assert (Contains (Path (substitute u (Spec.shortForm tag))) "{arch}" = false
          ∧ Contains (Path (substitute u (Spec.shortForm tag))) "{efi}" = false)
    as [Ha He].
  { rewrite substitute_path.
    apply (Substituted_clean (Spec.shortForm tag) (Spec.bootloader (Spec.shortForm tag))
             (Path u)).
    5: destruct tag; apply two_passes_substituted; reflexivity.
    all: destruct tag; first [reflexivity | peel_suffixes]. }
  split; [exact Ha|]. split; [exact He|].
  apply substitute_without_placeholders; assumption.
Qed.

(** X9.  A template whose path holds neither placeholder is used as it
    is, whatever the client's architecture: the working URL equals the
    template, so the options are those of the configured URL. *)
Theorem static_template_unchanged (u : URL) (archStr : string) :
  Contains (Path u) "{arch}" = false →
  Contains (Path u) "{efi}" = false →
  substitute u archStr = u
  ∧ generateOptions (substitute u archStr) = generateOptions u.
Proof.
  intros Ha He. rewrite (substitute_without_placeholders u archStr Ha He).
  split; reflexivity.
Qed.

End PlaceholderFacts.

(** ** Package [nbp]: the handlers at their edges *)

Section HandlerEdges.
Import GoStrings GoURL Nbp.

Lemma substitute_path_only (u1 u2 : URL) (archStr : string) :
  Path u1 = Path u2 → Path (substitute u1 archStr) = Path (substitute u2 archStr).
Proof.
  intros HP. unfold substitute. rewrite HP.
  repeat match goal with |- context [if ?b then _ else _] => destruct b end;
    reflexivity.
Qed.

(** X10.  On the TFTP branch only the host and the path of the template
    count: two templates with the same non-http, non-https, non-ftp
    scheme, host and path give the same result for every request and
    reply, whatever their query, fragment, user information or raw path. *)
Theorem tftp_branch_ignores_rest (u1 u2 : URL) (req : Dhcpv4.Request)
    (resp : option Dhcpv4.Reply) :
  Scheme u1 ∉ ["http"; "https"; "ftp"] →
  Scheme u1 = Scheme u2 →
  Host u1 = Host u2 →
  Path u1 = Path u2 →
  fst (handler4 u1 req resp) = fst (handler4 u2 req resp).
Proof.
  intros Hscheme HS HH HP. unfold handler4.
  assert (generateOptions (substitute u1 (getArchString (Dhcpv4.ClientArch req)))
          = generateOptions (substitute u2 (getArchString (Dhcpv4.ClientArch req)))) as ->.
  { unfold generateOptions.
    destruct (substitute_scheme_host u1 (getArchString (Dhcpv4.ClientArch req))) as [-> ->].
    destruct (substitute_scheme_host u2 (getArchString (Dhcpv4.ClientArch req))) as [-> ->].
    rewrite <- HS, <- HH, (substitute_path_only u1 u2 _ HP).
    destruct (String.eqb_spec (Scheme u1) "http") as [E | _].
    { exfalso. apply Hscheme. rewrite E. left. }
    destruct (String.eqb_spec (Scheme u1) "https") as [E | _].
    { exfalso. apply Hscheme. rewrite E. right. left. }
    destruct (String.eqb_spec (Scheme u1) "ftp") as [E | _].
    { exfalso. apply Hscheme. rewrite E. right. right. left. }
    reflexivity. }
  destruct (generateOptions _). reflexivity.
Qed.

(** X11.  With a nil reply the closure of [setup4] dereferences nil exactly
    when it has an option to write: the boot-file code is requested, or the
    transfer-server code is requested on the TFTP branch.  Otherwise it
    returns the nil reply with [stop = true]. *)
Theorem handler4_nil_reply (u : URL) (req : Dhcpv4.Request) :
  fst (handler4 u req None) =
    if (Dhcpv4.IsOptionRequested req Dhcpv4.OptionTFTPServerName
        && negb (bool_decide (Scheme u ∈ ["http"; "https"; "ftp"])))
       || Dhcpv4.IsOptionRequested req Dhcpv4.OptionBootfileName
    then Panic else Ret (None, true).
Proof.
  unfold handler4, generateOptions.
  destruct (substitute_scheme_host u (getArchString (Dhcpv4.ClientArch req))) as [-> _].
  assert (String.eqb (Scheme u) "http" || String.eqb (Scheme u) "https"
          || String.eqb (Scheme u) "ftp"
          = bool_decide (Scheme u ∈ ["http"; "https"; "ftp"])) as ->.
  { destruct (String.eqb_spec (Scheme u) "http") as [-> | H1]; [reflexivity|].
    destruct (String.eqb_spec (Scheme u) "https") as [-> | H2]; [reflexivity|].
    destruct (String.eqb_spec (Scheme u) "ftp") as [-> | H3]; [reflexivity|].
    rewrite bool_decide_eq_false_2; [reflexivity|].
    rewrite !elem_of_cons, elem_of_nil. tauto. }
  destruct (bool_decide _); cbn [fst updateIfRequested];
    destruct (Dhcpv4.IsOptionRequested req Dhcpv4.OptionTFTPServerName),
             (Dhcpv4.IsOptionRequested req Dhcpv4.OptionBootfileName); reflexivity.
Qed.

Lemma addAllRequested_nil o59 o60 (codes : list Dhcpv6.OptionCode) :
  addAllRequested o59 o60 None codes =
    if existsb (λ c, (c =? Dhcpv6.OptionBootfileURL)
                     || ((c =? Dhcpv6.OptionBootfileParam) && bool_decide (is_Some o60)))
         codes
    then Panic else Ret None.
Proof.
  induction codes as [|code codes IH]; [reflexivity|].
  cbn [addAllRequested existsb]. unfold addRequested.
  destruct (code =? Dhcpv6.OptionBootfileURL); [reflexivity|].
  destruct (code =? Dhcpv6.OptionBootfileParam); [|exact IH].
  destruct o60 as [o|]; [reflexivity | exact IH].
Qed.

Lemma length_bind_appended o59 o60 (codes : list Dhcpv6.OptionCode) :
  length (codes ≫= λ c : Dhcpv6.OptionCode,
            if c =? Dhcpv6.OptionBootfileURL then [o59 : Dhcpv6.Option]
            else if c =? Dhcpv6.OptionBootfileParam then option_list o60
            else [])
  = (length (filter (λ c, c = Dhcpv6.OptionBootfileURL) codes)
     + match o60 with
       | Some _ => length (filter (λ c, c = Dhcpv6.OptionBootfileParam) codes)
       | None => 0
       end)%nat.
Proof.
  induction codes as [|code codes IH]; [destruct o60; reflexivity|].
  rewrite bind_cons, length_app, IH, !filter_cons.
  destruct (N.eqb_spec code Dhcpv6.OptionBootfileURL) as [-> | H59].
  - rewrite decide_True by reflexivity. rewrite decide_False by discriminate.
    destruct o60; simpl; lia.
  - rewrite (decide_False (P := code = Dhcpv6.OptionBootfileURL)) by exact H59.
    destruct (N.eqb_spec code Dhcpv6.OptionBootfileParam) as [-> | H60].
    + rewrite decide_True by reflexivity. destruct o60; simpl; lia.
    + rewrite decide_False by exact H60. destruct o60; simpl; lia.
Qed.

Lemma filter_bind_appended (o59 o60 : Dhcpv6.Option) (codes : list Dhcpv6.OptionCode) :
  Dhcpv6.Code o59 = Dhcpv6.OptionBootfileURL →
  Dhcpv6.Code o60 = Dhcpv6.OptionBootfileParam →
  let added := codes ≫= λ c : Dhcpv6.OptionCode,
                 if c =? Dhcpv6.OptionBootfileURL then [o59]
                 else if c =? Dhcpv6.OptionBootfileParam then option_list (Some o60)
                 else [] in
  filter (λ o, Dhcpv6.Code o = Dhcpv6.OptionBootfileURL) added
  = replicate (length (filter (λ c, c = Dhcpv6.OptionBootfileURL) codes)) o59
  ∧ filter (λ o, Dhcpv6.Code o = Dhcpv6.OptionBootfileParam) added
    = replicate (length (filter (λ c, c = Dhcpv6.OptionBootfileParam) codes)) o60.
Proof.
  intros H59 H60 added. subst added.
  induction codes as [|code codes [IH1 IH2]]; [split; reflexivity|].
  rewrite bind_cons, !filter_app, IH1, IH2, !(filter_cons _ code).
  destruct (code =? Dhcpv6.OptionBootfileURL) eqn:E59.
  - apply N.eqb_eq in E59 as ->.
    rewrite decide_True by reflexivity. rewrite decide_False by discriminate.
    rewrite !filter_cons, !filter_nil, H59.
    rewrite decide_True by reflexivity. rewrite decide_False by discriminate.
    split; reflexivity.
  - apply N.eqb_neq in E59.
    rewrite (decide_False (P := code = Dhcpv6.OptionBootfileURL)) by exact E59.
    destruct (code =? Dhcpv6.OptionBootfileParam) eqn:E60.
    + apply N.eqb_eq in E60 as ->.
      rewrite decide_True by reflexivity.
      change (option_list (Some o60)) with [o60].
      rewrite !filter_cons, !filter_nil, H60.
      rewrite decide_False by discriminate. rewrite decide_True by reflexivity.
      split; reflexivity.
    + apply N.eqb_neq in E60.
      rewrite decide_False by exact E60. rewrite !filter_nil. split; reflexivity.
Qed.

Lemma filter_bind_appended_none (o59 : Dhcpv6.Option) (codes : list Dhcpv6.OptionCode) :
  Dhcpv6.Code o59 = Dhcpv6.OptionBootfileURL →
  let added := codes ≫= λ c : Dhcpv6.OptionCode,
                 if c =? Dhcpv6.OptionBootfileURL then [o59]
                 else if c =? Dhcpv6.OptionBootfileParam then option_list None
                 else [] in
  added = replicate (length (filter (λ c, c = Dhcpv6.OptionBootfileURL) codes)) o59.
Proof.
  intros H59 added. subst added.
  induction codes as [|code codes IH]; [reflexivity|].
  rewrite bind_cons, IH, filter_cons.
  destruct (code =? Dhcpv6.OptionBootfileURL) eqn:E59.
  - apply N.eqb_eq in E59 as ->. rewrite decide_True by reflexivity. reflexivity.
  - apply N.eqb_neq in E59. rewrite decide_False by exact E59.
    destruct (code =? Dhcpv6.OptionBootfileParam); reflexivity.
Qed.

(** X12.  [nbpHandler6] answers the request list entry by entry: the reply
    keeps its options, in order, and gains, in the order of the list, the
    boot-file URL option for each occurrence of code 59, the parameter
    option, when one is set, for each occurrence of code 60, and nothing
    for any other code; repeated codes are not merged.  With the variables
    as [setup6] leaves them, the added options with code 59 are as many
    copies of the URL option as the list has occurrences of 59, and those
    with code 60 as many copies of the parameter option as the list has
    occurrences of 60, or none when no parameter option is set. *)
Theorem nbpHandler6_appends_per_occurrence (g : Globals) (o59 : Dhcpv6.Option)
    (req : Dhcpv6.Request) (decap : Dhcpv6.Message) (r : Dhcpv6.Reply) :
  opt59 g = Some o59 →
  Dhcpv6.GetInnerMessage req = inl decap →
  let codes := Dhcpv6.RequestedOptions decap in
  let answer (c : Dhcpv6.OptionCode) :=
    if c =? Dhcpv6.OptionBootfileURL then [o59]
    else if c =? Dhcpv6.OptionBootfileParam then
      match opt60 g with Some o60 => [o60] | None => [] end
    else [] in
  let added := codes ≫= answer in
  nbpHandler6 g req (Some r)
  = Ret (Some {| Dhcpv6.Options := Dhcpv6.Options r ++ added |}, true)
  ∧ length added
    = (length (filter (λ c, c = Dhcpv6.OptionBootfileURL) codes)
       + match opt60 g with
         | Some _ => length (filter (λ c, c = Dhcpv6.OptionBootfileParam) codes)
         | None => 0
         end)%nat
  ∧ Forall (λ o, o = o59 ∨ opt60 g = Some o) added
  ∧ (wellFormed g →
     filter (λ o, Dhcpv6.Code o = Dhcpv6.OptionBootfileURL) added
     = replicate (length (filter (λ c, c = Dhcpv6.OptionBootfileURL) codes)) o59
     ∧ filter (λ o, Dhcpv6.Code o = Dhcpv6.OptionBootfileParam) added
       = match opt60 g with
         | Some o60 =>
             replicate (length (filter (λ c, c = Dhcpv6.OptionBootfileParam) codes)) o60
         | None => []
         end).
Proof.
  intros H59 Hdecap codes answer added.
  assert (added = codes ≫= λ c : Dhcpv6.OptionCode,
                    if c =? Dhcpv6.OptionBootfileURL then [o59]
                    else if c =? Dhcpv6.OptionBootfileParam then option_list (opt60 g)
                    else []) as Hadded.
  { subst added answer. destruct (opt60 g); reflexivity. }
  split.
  { unfold nbpHandler6. rewrite H59, Hdecap, addAllRequested_some, Hadded. reflexivity. }
  split; [rewrite Hadded; apply length_bind_appended|].
  split.
  { rewrite Hadded. apply Forall_forall.
    intros o (code & Ho & _)%list_elem_of_bind. cbv beta in Ho.
    destruct (code =? Dhcpv6.OptionBootfileURL).
    { apply list_elem_of_singleton in Ho. auto. }
    destruct (code =? Dhcpv6.OptionBootfileParam); [|inversion Ho].
    destruct (opt60 g) as [o'|]; simpl in Ho; [|inversion Ho].
    apply list_elem_of_singleton in Ho as ->. auto. }
  intros [Hc59 Hc60]. specialize (Hc59 o59 H59). rewrite Hadded.
  destruct (opt60 g) as [o60|].
  - apply filter_bind_appended; [exact Hc59 | apply Hc60; reflexivity].
  - rewrite (filter_bind_appended_none o59 codes Hc59). split.
    + induction (length _) as [|n IH]; [reflexivity|].
      cbn [replicate]. rewrite filter_cons, Hc59.
      rewrite decide_True by reflexivity. rewrite IH. reflexivity.
    + induction (length _) as [|n IH]; [reflexivity|].
      cbn [replicate]. rewrite filter_cons, Hc59.
      rewrite decide_False by discriminate. exact IH.
Qed.

(** X13.  The two failures of [nbpHandler6] once a boot URL is set: a
    request that cannot be decapsulated is dropped ([nil], [stop = true])
    whatever the reply; with a nil reply the handler dereferences nil
    exactly when the request list holds a code it answers, and otherwise
    returns the nil reply with [stop = true]. *)
Theorem nbpHandler6_failures (g : Globals) (o59 : Dhcpv6.Option)
    (req : Dhcpv6.Request) (resp : option Dhcpv6.Reply) :
  opt59 g = Some o59 →
  match Dhcpv6.GetInnerMessage req with
  | inr _ => nbpHandler6 g req resp = Ret (None, true)
  | inl decap =>
      nbpHandler6 g req None =
        if bool_decide (Dhcpv6.OptionBootfileURL ∈ Dhcpv6.RequestedOptions decap
                        ∨ (Dhcpv6.OptionBootfileParam ∈ Dhcpv6.RequestedOptions decap
                           ∧ is_Some (opt60 g)))
        then Panic else Ret (None, true)
  end.
Proof.
  intros H59. unfold nbpHandler6. rewrite H59.
  destruct (Dhcpv6.GetInnerMessage req) as [decap | err]; [|reflexivity].
  rewrite addAllRequested_nil.
  destruct (existsb _ _) eqn:Hex.
  - rewrite bool_decide_eq_true_2; [reflexivity|].
    apply existsb_exists in Hex as (c & Hc & Ht). apply list_elem_of_In in Hc.
    apply orb_true_iff in Ht as [E | [E Hs]%andb_true_iff].
    + apply N.eqb_eq in E as ->. auto.
    + apply N.eqb_eq in E as ->. apply bool_decide_eq_true in Hs. auto.
  - rewrite bool_decide_eq_false_2; [reflexivity|].
    intros Hreq. apply not_true_iff_false in Hex. apply Hex. apply existsb_exists.
    destruct Hreq as [Hin | [Hin Hs]].
    + exists Dhcpv6.OptionBootfileURL. split; [apply list_elem_of_In, Hin | reflexivity].
    + exists Dhcpv6.OptionBootfileParam. split; [apply list_elem_of_In, Hin|].
      rewrite bool_decide_eq_true_2 by exact Hs. reflexivity.
Qed.

End HandlerEdges.

(** ** Package [nbp]: setup *)

Section NbpSetupFacts.
Import GoStrings GoURL Nbp.
Context `{NetURL}.

(** X14.  The two setups accept the same configurations: [setup6] returns
    no error exactly when [setup4] returns its closure, both return the
    same error otherwise, a failing [setup6] leaves the package variables
    as they were, and any number of arguments other than one is an
    error. *)
Theorem setups_accept_together (g : Globals) (args : list string) :
  (snd (setup6 g args) = None ↔
   ∃ u, parseArgs args = inl u ∧ setup4 args = inl (handler4 u))
  ∧ (∀ err, snd (setup6 g args) = Some err ↔ setup4 args = inr err)
  ∧ (∀ err, snd (setup6 g args) = Some err → fst (setup6 g args) = g)
  ∧ (length args ≠ 1%nat → ∃ err, snd (setup6 g args) = Some err).
Proof.
  unfold setup6, setup4.
  split; [|split; [|split]].
  - destruct (parseArgs args) as [u | err]; cbn [snd]; split.
    + intros _. exists u. split; reflexivity.
    + reflexivity.
    + discriminate.
    + intros (u & Hu & _). discriminate.
  - intros err. destruct (parseArgs args) as [u | err']; cbn [snd]; split;
      try discriminate; intros [= ->]; reflexivity.
  - intros err. destruct (parseArgs args) as [u | err']; cbn [snd fst];
      [discriminate | reflexivity].
  - intros Hlen. destruct (parseArgs_arity args Hlen) as [err ->]. eauto.
Qed.

(** X15.  [setup6] never clears the parameter option: set up first with a
    URL that has a [params] value and then with one that has none, the
    package keeps the old parameter option beside the new URL option, and
    a request for both codes is answered with the new URL and the old
    parameters. *)
Theorem setup6_keeps_old_params (g : Globals) (a1 a2 : string) (u1 u2 : URL)
    (req : Dhcpv6.Request) (r : Dhcpv6.Reply) :
  Parse a1 = inl u1 →
  Parse a2 = inl u2 →
  Query_Get u1 "params" ≠ "" →
  Query_Get u2 "params" = "" →
  Dhcpv6.GetInnerMessage req
  = inl {| Dhcpv6.RequestedOptions :=
             [Dhcpv6.OptionBootfileURL; Dhcpv6.OptionBootfileParam] |} →
  let g2 := fst (setup6 (fst (setup6 g [a1])) [a2]) in
  let old := {| Dhcpv6.Code := Dhcpv6.OptionBootfileParam;
                Dhcpv6.Data := Query_Get u1 "params" |} in
  opt59 g2 = Some (Dhcpv6.OptBootFileURL (URL_String u2))
  ∧ opt60 g2 = Some old
  ∧ nbpHandler6 g2 req (Some r)
    = Ret (Some {| Dhcpv6.Options :=
                     Dhcpv6.Options r ++ [Dhcpv6.OptBootFileURL (URL_String u2); old] |},
           true).
Proof.
  intros H1 H2 Hp1 Hp2 Hreq g2 old. subst g2 old.
  unfold setup6, parseArgs. rewrite H1, H2, Hp2.
  apply String.eqb_neq in Hp1. rewrite Hp1. cbn [negb fst opt59 opt60 String.eqb].
  split; [reflexivity|]. split; [reflexivity|].
  unfold nbpHandler6. cbn [opt59 opt60]. rewrite Hreq, addAllRequested_some.
  reflexivity.
Qed.

(** X16.  Nothing assigns [opt66] or [opt67]: they are nil before any setup
    and [setup6] leaves them as they are, so wherever [opt67] is nil the
    older handler [nbpHandler4] returns every reply as it received it,
    with [stop = true]. *)
Theorem nbpHandler4_inert (g : Globals) (args : list string)
    (req : Dhcpv4.Request) (resp : option Dhcpv4.Reply) :
  opt67 g = None →
  opt66 (fst (setup6 g args)) = opt66 g
  ∧ opt67 (fst (setup6 g args)) = None
  ∧ nbpHandler4 (fst (setup6 g args)) req resp = Ret (resp, true)
  ∧ nbpHandler4 initial req resp = Ret (resp, true).
Proof.
  intros H67.
  assert (opt66 (fst (setup6 g args)) = opt66 g ∧ opt67 (fst (setup6 g args)) = None)
    as [E66 E67].
  { unfold setup6. destruct (parseArgs args) as [u | err]; [|auto].
    destruct (negb _); auto. }
  repeat split; [exact E66 | exact E67 |].
  unfold nbpHandler4. rewrite E67. reflexivity.
Qed.

End NbpSetupFacts.

Section ShortForms.
Import Nbp.

Lemma shortForm_inj (t1 t2 : Spec.ArchitectureTag) :
  Spec.shortForm t1 = Spec.shortForm t2 → t1 = t2.
Proof. destruct t1, t2; (reflexivity || discriminate). Qed.

(** X17.  The short form returned by [getArchString] identifies the class
    of the request: two requests get the same short form exactly when the
    specification's classifier gives them the same tag; ["default"] is
    returned for the empty list only and ["x86"] only when the first code
    is EFI x86-64. *)
Theorem short_form_identifies_tag (archs archs' : list Iana.Arch) :
  (getArchString archs = getArchString archs' ↔ Spec.classify archs = Spec.classify archs')
  ∧ (getArchString archs = "default" ↔ archs = [])
  ∧ (getArchString archs = "x86" ↔ head archs = Some Iana.EFI_X86_64).
Proof.
  split; [|split].
  - rewrite !getArchString_classify. split; [apply shortForm_inj | intros ->; reflexivity].
  - split; [|intros ->; reflexivity].
    destruct archs as [|a rest]; [reflexivity|]. unfold getArchString.
    repeat match goal with |- context [if ?b then _ else _] => destruct b end;
      discriminate.
  - destruct archs as [|a rest]; [split; discriminate|]. unfold getArchString. cbn [head].
    destruct (N.eqb_spec a Iana.EFI_X86_64) as [-> | Hne].
    + split; reflexivity.
    + split.
      * repeat match goal with |- context [if ?b then _ else _] => destruct b end;
          discriminate.
      * intros [= E]. contradiction.
Qed.

End ShortForms.

(** ** Package [next_server] *)

Section NextServerFacts.
Import GoNet NextServer.
Context `{NetIP}.

Lemma To4_length (ip v4 : IP) : To4 ip = Some v4 → length v4 = 4%nat.
Proof.
  unfold To4. destruct (Nat.eqb_spec (length ip) 4) as [E4 | _].
  - intros [= <-]. exact E4.
  - destruct (Nat.eqb_spec (length ip) 16) as [E16 | _]; [|discriminate].
    destruct (_ && _); [|discriminate]. intros [= <-].
    rewrite length_take, length_drop, E16. reflexivity.
Qed.

(** [To4] of a 4-byte address is the address. *)
Lemma To4_idempotent (ip v4 : IP) : To4 ip = Some v4 → To4 v4 = Some v4.
Proof.
  intros Hv. apply To4_length in Hv. unfold To4. rewrite Hv. reflexivity.
Qed.

(** X18.  [setup4] of [next_server] looks at its first argument only and
    accepts it exactly when it parses to an address with a 4-byte form;
    the plugin keeps the parsed address.  No argument, an unparsable one
    and an address without a 4-byte form are errors. *)
Theorem next_server_setup (args : list string) (p : NextServerPlugin) :
  (setup4 args = inl p ↔
   ∃ a rest v4, args = a :: rest ∧ ParseIP a = Some (NextServer p)
                ∧ To4 (NextServer p) = Some v4 ∧ length v4 = 4%nat)
  ∧ (∀ a rest, setup4 (a :: rest) = setup4 [a])
  ∧ (∃ err, setup4 [] = inr err)
  ∧ (∀ a rest, ParseIP a = None → ∃ err, setup4 (a :: rest) = inr err)
  ∧ (∀ a rest ip, ParseIP a = Some ip → To4 ip = None →
       ∃ err, setup4 (a :: rest) = inr err).
Proof.
  split; [|split; [|split; [|split]]].
  - unfold setup4. split.
    + destruct args as [|a rest]; [discriminate|].
      destruct (ParseIP a) as [ip|] eqn:Hip; [|discriminate].
      destruct (To4 ip) as [v4|] eqn:Hv; [|discriminate].
      intros [= <-]. exists a, rest, v4. cbn [NextServer].
      repeat split; [exact Hip | exact Hv | apply (To4_length ip), Hv].
    + intros (a & rest & v4 & -> & Hip & Hv & _). rewrite Hip, Hv.
      destruct p. reflexivity.
  - reflexivity.
  - eexists. reflexivity.
  - intros a rest Hip. unfold setup4. rewrite Hip. eexists. reflexivity.
  - intros a rest ip Hip Hv. unfold setup4. rewrite Hip, Hv. eexists. reflexivity.
Qed.

(** X19.  After a successful [setup4], [handle4] writes a 4-byte server
    address into every non-nil reply, leaves the options of the reply as
    they are and lets the chain continue; a nil reply is dropped with
    [stop = true].  Applied again, it changes nothing. *)
Theorem next_server_handle4 (args : list string) (p : NextServerPlugin)
    (req : Dhcpv4.Request) (r : Dhcpv4.Reply) :
  setup4 args = inl p →
  ∃ v4,
    To4 (NextServer p) = Some v4
    ∧ length v4 = 4%nat
    ∧ handle4 p req (Some r)
      = (Some {| Dhcpv4.ServerIPAddr := v4; Dhcpv4.Options := Dhcpv4.Options r |}, false)
    ∧ handle4 p req (fst (handle4 p req (Some r))) = handle4 p req (Some r)
    ∧ handle4 p req None = (None, true).
Proof.
  intros Hp. apply next_server_setup in Hp as (a & rest & v4 & _ & _ & Hv & Hlen).
  exists v4. unfold handle4. rewrite Hv. repeat split; assumption.
Qed.

(** X20.  [next_server] and the closure of [nbp] touch different parts of
    a reply, the fixed server address and the options 66 and 67: on a
    non-nil reply they give the same reply in either order. *)
Theorem next_server_nbp_commute (p : NextServerPlugin) (u : GoURL.URL)
    (req : Dhcpv4.Request) (r : Dhcpv4.Reply) :
  ∃ r1, fst (Nbp.handler4 u req (Some r)) = Ret (Some r1, true)
        ∧ fst (Nbp.handler4 u req (fst (handle4 p req (Some r))))
          = Ret (fst (handle4 p req (Some r1)), true).
Proof.
  rewrite handler4_reply. eexists. split; [reflexivity|].
  unfold handle4. cbn [fst]. rewrite handler4_reply. reflexivity.
Qed.

End NextServerFacts.

(** ** Instances of the further properties at sample inputs *)

Lemma blank_entry_skipped_witness :
  GoStrings.allBytes GoStrings.asciiSpace "   " = true
  ∧ Whitelist.setup6 (H := asciiTables) None (["aa:bb:cc:dd:ee:ff"] ++ "   " :: [])
    = Whitelist.setup6 (H := asciiTables) None (["aa:bb:cc:dd:ee:ff"] ++ []).
Proof.
  split; [reflexivity|].
  apply (blank_entry_skipped (H := asciiTables) None ["aa:bb:cc:dd:ee:ff"] [] "   ").
  reflexivity.
Defined.

Lemma listed_address_passes_witness :
  "  AA:BB:CC:DD:EE:FF " ∈ ["  AA:BB:CC:DD:EE:FF "]
  ∧ GoStrings.isASCII "  AA:BB:CC:DD:EE:FF " = true
  ∧ GoStrings.mapBytes GoStrings.lowerByte (GoStrings.asciiTrim "  AA:BB:CC:DD:EE:FF ")
    = GoNet.HardwareAddr_String [xaa; xbb; xcc; xdd; xee; xff]
  ∧ [xaa; xbb; xcc; xdd; xee; xff] ≠ ([] : list byte)
  ∧ Whitelist.Handler4 (H := asciiTables)
      (Whitelist.setup6 (H := asciiTables) None ["  AA:BB:CC:DD:EE:FF "])
      (Sample.request4 [xaa; xbb; xcc; xdd; xee; xff] [] []) (Some Sample.reply4)
    = (Some Sample.reply4, false).
Proof.
  assert ("  AA:BB:CC:DD:EE:FF " ∈ ["  AA:BB:CC:DD:EE:FF "]) as Hin by left.
  assert ([xaa; xbb; xcc; xdd; xee; xff] ≠ ([] : list byte)) as Hne by discriminate.
  split; [exact Hin|]. split; [reflexivity|]. split; [reflexivity|]. split; [exact Hne|].
  apply (listed_address_passes (H := asciiTables) None ["  AA:BB:CC:DD:EE:FF "]
           "  AA:BB:CC:DD:EE:FF " [xaa; xbb; xcc; xdd; xee; xff]
           (Sample.request4 [xaa; xbb; xcc; xdd; xee; xff] [] []) (Some Sample.reply4)
           (Sample.request6 (inl [xaa; xbb; xcc; xdd; xee; xff]) []) (Some Sample.reply6)
           Hin eq_refl eq_refl Hne eq_refl eq_refl).
Defined.

Lemma exactly_listed_addresses_pass_witness :
  [Sample.macListed] ≠ []
  ∧ ([] ∉ [Sample.macListed])
  ∧ (Whitelist.Handler4 (H := asciiTables)
       (Whitelist.setup6 (H := asciiTables) None
          (GoNet.HardwareAddr_String <$> [Sample.macListed]))
       (Sample.request4 Sample.macOther [] []) (Some Sample.reply4)
     = (Some Sample.reply4, false)
     ↔ Sample.macOther ∈ [Sample.macListed]).
Proof.
  assert ([Sample.macListed] ≠ []) as Hne by discriminate.
  assert ([] ∉ [Sample.macListed]) as Hnil.
  { intros Hin. apply list_elem_of_singleton in Hin. discriminate. }
  split; [exact Hne|]. split; [exact Hnil|].
  apply (exactly_listed_addresses_pass (H := asciiTables) None [Sample.macListed]
           (Sample.request4 Sample.macOther [] []) (Some Sample.reply4)
           (Sample.request6 (inl Sample.macOther) []) (Some Sample.reply6) Hne Hnil).
Defined.

Lemma handlers_agree_witness :
  Dhcpv6.ExtractMAC (Sample.request6 (inl Sample.macOther) [])
  = inl (Dhcpv4.ClientHWAddr (Sample.request4 Sample.macOther [] []))
  ∧ ((Whitelist.Handler4 (H := asciiTables)
        (Whitelist.setup6 (H := asciiTables) None Sample.allowArgs)
        (Sample.request4 Sample.macOther [] []) (Some Sample.reply4)
      = (Some Sample.reply4, false)
      ∧ Whitelist.Handler6 (H := asciiTables)
          (Whitelist.setup6 (H := asciiTables) None Sample.allowArgs)
          (Sample.request6 (inl Sample.macOther) []) (Some Sample.reply6)
        = (Some Sample.reply6, false))
     ∨ (Whitelist.Handler4 (H := asciiTables)
          (Whitelist.setup6 (H := asciiTables) None Sample.allowArgs)
          (Sample.request4 Sample.macOther [] []) (Some Sample.reply4)
        = (None, true)
        ∧ Whitelist.Handler6 (H := asciiTables)
            (Whitelist.setup6 (H := asciiTables) None Sample.allowArgs)
            (Sample.request6 (inl Sample.macOther) []) (Some Sample.reply6)
          = (None, true))).
Proof.
  split; [reflexivity|].
  apply (handlers_agree (H := asciiTables)). reflexivity.
Defined.

Lemma static_template_unchanged_witness :
  GoStrings.Contains (GoURL.Path Sample.paramsTemplate) "{arch}" = false
  ∧ GoStrings.Contains (GoURL.Path Sample.paramsTemplate) "{efi}" = false
  ∧ Nbp.substitute Sample.paramsTemplate "arm64" = Sample.paramsTemplate
  ∧ Nbp.generateOptions (Nbp.substitute Sample.paramsTemplate "arm64")
    = Nbp.generateOptions Sample.paramsTemplate.
Proof.
  split; [reflexivity|]. split; [reflexivity|].
  apply (static_template_unchanged Sample.paramsTemplate "arm64"); reflexivity.
Defined.

Lemma tftp_branch_ignores_rest_witness :
  (GoURL.Scheme Sample.tftpTemplate ∉ ["http"; "https"; "ftp"])
  ∧ fst (Nbp.handler4 Sample.tftpTemplate
           (Sample.request4 Sample.macListed [Iana.EFI_X86_64] [66; 67])
           (Some Sample.reply4))
    = fst (Nbp.handler4 Sample.tftpTemplateWithQuery
             (Sample.request4 Sample.macListed [Iana.EFI_X86_64] [66; 67])
             (Some Sample.reply4)).
Proof.
  assert (GoURL.Scheme Sample.tftpTemplate ∉ ["http"; "https"; "ftp"]) as Hs.
  { rewrite !elem_of_cons, elem_of_nil. intros [E | [E | [E | []]]]; discriminate. }
  split; [exact Hs|].
  apply (tftp_branch_ignores_rest Sample.tftpTemplate Sample.tftpTemplateWithQuery);
    [exact Hs | reflexivity | reflexivity | reflexivity].
Defined.

Lemma nbpHandler6_appends_per_occurrence_witness :
  Nbp.opt59 Sample.nbpWithParams
  = Some (Dhcpv6.OptBootFileURL "http://boot.example/nbp?params=quiet")
  ∧ Dhcpv6.GetInnerMessage (Sample.request6 (inl Sample.macListed) [60; 59; 23; 59])
    = inl {| Dhcpv6.RequestedOptions := [60; 59; 23; 59] |}
  ∧ Nbp.wellFormed Sample.nbpWithParams
  ∧ Nbp.nbpHandler6 Sample.nbpWithParams
      (Sample.request6 (inl Sample.macListed) [60; 59; 23; 59]) (Some Sample.reply6)
    = Ret (Some {| Dhcpv6.Options :=
                     Dhcpv6.Options Sample.reply6
                     ++ [ {| Dhcpv6.Code := 60; Dhcpv6.Data := "quiet" |};
                          Dhcpv6.OptBootFileURL "http://boot.example/nbp?params=quiet";
                          Dhcpv6.OptBootFileURL "http://boot.example/nbp?params=quiet" ] |},
           true).
Proof.
  assert (Nbp.wellFormed Sample.nbpWithParams) as Hwf.
  { split; intros o [= <-]; reflexivity. }
  split; [reflexivity|]. split; [reflexivity|]. split; [exact Hwf|].
  exact (proj1 (nbpHandler6_appends_per_occurrence Sample.nbpWithParams
                  (Dhcpv6.OptBootFileURL "http://boot.example/nbp?params=quiet")
                  (Sample.request6 (inl Sample.macListed) [60; 59; 23; 59])
                  {| Dhcpv6.RequestedOptions := [60; 59; 23; 59] |} Sample.reply6
                  eq_refl eq_refl)).
Defined.

Lemma nbpHandler6_failures_witness :
  Nbp.opt59 Sample.nbpConfigured
  = Some (Dhcpv6.OptBootFileURL "http://[2001:db8:a::1]/nbp")
  ∧ Nbp.nbpHandler6 Sample.nbpConfigured Sample.request6Broken (Some Sample.reply6)
    = Ret (None, true).
Proof.
  split; [reflexivity|].
  exact (nbpHandler6_failures Sample.nbpConfigured
           (Dhcpv6.OptBootFileURL "http://[2001:db8:a::1]/nbp")
           Sample.request6Broken (Some Sample.reply6) eq_refl).
Defined.

Lemma setup6_keeps_old_params_witness :
  Parse (NetURL := Sample.sampleURLs) "http://boot.example/nbp?params=quiet"
  = inl Sample.paramsTemplate
  ∧ Parse (NetURL := Sample.sampleURLs) "http://boot.example/{arch}.ipxe"
    = inl Sample.httpTemplate
  ∧ Query_Get (NetURL := Sample.sampleURLs) Sample.paramsTemplate "params" ≠ ""
  ∧ Query_Get (NetURL := Sample.sampleURLs) Sample.httpTemplate "params" = ""
  ∧ Nbp.opt60
      (fst (Nbp.setup6 (H := Sample.sampleURLs)
              (fst (Nbp.setup6 (H := Sample.sampleURLs) Nbp.initial
                      ["http://boot.example/nbp?params=quiet"]))
              ["http://boot.example/{arch}.ipxe"]))
    = Some {| Dhcpv6.Code := Dhcpv6.OptionBootfileParam; Dhcpv6.Data := "quiet" |}.
Proof.
  assert (Query_Get (NetURL := Sample.sampleURLs) Sample.paramsTemplate "params" ≠ "")
    as Hp by discriminate.
  split; [reflexivity|]. split; [reflexivity|]. split; [exact Hp|]. split; [reflexivity|].
  apply (setup6_keeps_old_params (H := Sample.sampleURLs) Nbp.initial
           "http://boot.example/nbp?params=quiet" "http://boot.example/{arch}.ipxe"
           Sample.paramsTemplate Sample.httpTemplate
           (Sample.request6 (inl Sample.macListed) [59; 60]) Sample.reply6
           eq_refl eq_refl Hp eq_refl eq_refl).
Defined.

Lemma nbpHandler4_inert_witness :
  Nbp.opt67 Nbp.initial = None
  ∧ Nbp.nbpHandler4
      (fst (Nbp.setup6 (H := Sample.sampleURLs) Nbp.initial
              ["http://boot.example/nbp?params=quiet"]))
      (Sample.request4 Sample.macListed [] [66; 67]) (Some Sample.reply4)
    = Ret (Some Sample.reply4, true).
Proof.
  split; [reflexivity|].
  apply (nbpHandler4_inert (H := Sample.sampleURLs) Nbp.initial
           ["http://boot.example/nbp?params=quiet"]
           (Sample.request4 Sample.macListed [] [66; 67]) (Some Sample.reply4)).
  reflexivity.
Defined.

Lemma next_server_handle4_witness :
  NextServer.setup4 (H := Sample.sampleIPs) ["10.0.0.254"; "ignored"]
  = inl {| NextServer.NextServer := Sample.ip10_0_0_254 |}
  ∧ ∃ v4,
      GoNet.To4 Sample.ip10_0_0_254 = Some v4
      ∧ NextServer.handle4 {| NextServer.NextServer := Sample.ip10_0_0_254 |}
          (Sample.request4 Sample.macListed [] []) (Some Sample.reply4)
        = (Some {| Dhcpv4.ServerIPAddr := v4;
                   Dhcpv4.Options := Dhcpv4.Options Sample.reply4 |}, false).
Proof.
  split; [reflexivity|].
  destruct (next_server_handle4 (H := Sample.sampleIPs) ["10.0.0.254"; "ignored"]
              {| NextServer.NextServer := Sample.ip10_0_0_254 |}
              (Sample.request4 Sample.macListed [] []) Sample.reply4 eq_refl)
    as (v4 & Hv & _ & Heq & _).
  exists v4. split; [exact Hv | exact Heq].
Defined.

(** The sample IPv6 address has no 4-byte form and is refused. *)
Lemma sample_ipv6_next_server_refused :
  NextServer.setup4 (H := Sample.sampleIPs) ["2001:db8::1"]
  = inr "invalid IPv4 address for next_server: 2001:db8::1".
Proof. reflexivity. Qed.
